(** * clientpi: sensor readers, the MQTT client and the agent loop

    A shallow embedding of [src/sensor_reader.py], [src/mqtt_client.py] and
    the poll loop of [src/main.py].

    - Python floats are the kernel's binary64 floats; [<] and [>] are
      [PrimFloat.ltb], so a NaN compares false both ways, as in Python.
    - Python [int] counters are [Z].
    - A Python [dict] that is iterated ([sensors], [readings]) is an
      association list in insertion order with unique keys; the constant
      lookup tables are [gmap]s.
    - Methods that mutate [self] pass the object explicitly; the MQTT client
      runs in a small state monad whose state carries the object, the
      calls made on the paho transport and the log. *)

From Stdlib Require Import Floats.PrimFloat.
From Stdlib Require Import ZArith Lia.
From stdpp Require Import base option list strings gmap.

Open Scope Z_scope.
Open Scope string_scope.

(** ** Python values shared by the modules *)

(** What a call yields: a value, or a raised exception with its [str(e)]. *)
Inductive Result (A : Type) : Type :=
| Ok (a : A)
| Raise (msg : string).
Arguments Ok {A} a.
Arguments Raise {A} msg.

Definition is_none {A} (o : option A) : bool :=
  match o with None => true | Some _ => false end.

(** Python's two-argument [min] and [max]: the first argument is returned
    unless the second one is strictly smaller (larger). *)
Definition py_min (a b : float) : float := if PrimFloat.ltb b a then b else a.
Definition py_max (a b : float) : float := if PrimFloat.ltb a b then b else a.

(** JSON-serialisable values, as built by [to_dict] and the publish helpers. *)
#[warnings="-register-all"]
Inductive JValue : Type :=
| JNone
| JStr (s : string)
| JBool (b : bool)
| JInt (n : Z)
| JFloat (x : float)
| JTime (t : Z)
| JDict (items : list (string * JValue)).

Definition opt_float (o : option float) : JValue :=
  match o with Some x => JFloat x | None => JNone end.
Definition opt_str (o : option string) : JValue :=
  match o with Some s => JStr s | None => JNone end.
Definition opt_int (o : option Z) : JValue :=
  match o with Some n => JInt n | None => JNone end.

(** An insertion-ordered dictionary: [d[k] = v] replaces in place or appends. *)
Definition dict (V : Type) : Type := list (string * V).

Fixpoint dict_set {V} (k : string) (v : V) (d : dict V) : dict V :=
  match d with
  | [] => [(k, v)]
  | (k', v') :: d' =>
      if String.eqb k k' then (k, v) :: d' else (k', v') :: dict_set k v d'
  end.

Fixpoint dict_get {V} (k : string) (d : dict V) : option V :=
  match d with
  | [] => None
  | (k', v') :: d' => if String.eqb k k' then Some v' else dict_get k d'
  end.

Definition keys {V} (d : dict V) : list string := map fst d.

(** ** sensor_reader.py *)

(** [SensorReading] (lines 30-63). [timestamp] is filled by [__post_init__]
    from the clock; every constructor call in the repository leaves it
    unset, so the constructors below take the clock value. *)
Record SensorReading : Type := mkReading {
  temperature : option float;
  humidity : option float;
  pressure : option float;
  timestamp : Z;
  sensor_id : string;
  sensor_type : string;
  error : option string
}.

Definition to_dict (self : SensorReading) : JValue :=
  JDict [("temperature", opt_float (temperature self));
         ("humidity", opt_float (humidity self));
         ("pressure", opt_float (pressure self));
         ("timestamp", JTime (timestamp self));
         ("sensor_id", JStr (sensor_id self));
         ("sensor_type", JStr (sensor_type self));
         ("error", opt_str (error self))].

Definition is_valid (self : SensorReading) : bool :=
  is_none (error self) &&
  (negb (is_none (temperature self)) ||
   negb (is_none (humidity self)) ||
   negb (is_none (pressure self))).

Definition set_temperature (v : option float) (r : SensorReading) :=
  mkReading v (humidity r) (pressure r) (timestamp r) (sensor_id r)
            (sensor_type r) (error r).
Definition set_humidity (v : option float) (r : SensorReading) :=
  mkReading (temperature r) v (pressure r) (timestamp r) (sensor_id r)
            (sensor_type r) (error r).
Definition set_error (v : option string) (r : SensorReading) :=
  mkReading (temperature r) (humidity r) (pressure r) (timestamp r)
            (sensor_id r) (sensor_type r) v.

(** The reader classes. [sensor] tells whether [self.sensor] is a driver
    object ([true]) or [None]; the base class has no driver and its [read]
    raises [NotImplementedError]. *)
Inductive ReaderKind : Type :=
| BaseReader
| DHT11Reader (pin : Z) (sensor : bool)
| DS18B20Reader (sensor : bool)
| MockSensorReader (base_temp base_humidity drift : float).

Record SensorReader : Type := mkReader {
  kind : ReaderKind;
  reader_id : string;          (* self.sensor_id *)
  reader_type : string;        (* self.sensor_type *)
  _last_reading : option SensorReading;
  _error_count : Z;
  _max_errors : Z
}.

Definition get_last_reading (self : SensorReader) : option SensorReading :=
  _last_reading self.

Definition is_healthy (self : SensorReader) : bool :=
  Z.ltb (_error_count self) (_max_errors self).

Definition with_state (k : ReaderKind) (last : option SensorReading)
    (errs : Z) (self : SensorReader) : SensorReader :=
  mkReader k (reader_id self) (reader_type self) last errs (_max_errors self).

(** What one call of [read] takes from outside the program: the clock, the
    hardware driver's answers and the random draws, in the order the code
    asks for them. *)
Record ReadEnv : Type := mkEnv {
  now : Z;
  hw_temperature : Result (option float);   (* self.sensor.temperature *)
  hw_humidity : Result (option float);      (* self.sensor.humidity *)
  hw_get_temperature : Result float;        (* self.sensor.get_temperature() *)
  uniform1 : float;                         (* first random.uniform draw *)
  uniform2 : float;
  uniform3 : float;
  random_random : float                     (* random.random() *)
}.

Section SensorReader.

(** [shared/constants.py] is not part of the sources: the [SensorType]
    enumeration is given by the set of its values and [SENSOR_RANGES] by
    its nested table, sensor type to field to ["min"]/["max"] to bound. *)
Variable SensorType : string -> bool.
Variable SENSOR_RANGES : gmap string (gmap string (gmap string float)).

(** Import-time flags (lines 13-25) and Python's [round] builtin. *)
Variable HAS_DHT : bool.
Variable HAS_DS18B20 : bool.
Variable round : float -> Z -> float.

(** The two tests of one block of [validate_reading] (lines 91-110):
    ['min' in r and x < r['min']], then ['max' in r and x > r['max']];
    [true] when the block executes [return False]. *)
Definition below_min (rng : gmap string float) (x : float) : bool :=
  match rng !! "min" with Some lo => PrimFloat.ltb x lo | None => false end.
Definition above_max (rng : gmap string float) (x : float) : bool :=
  match rng !! "max" with Some hi => PrimFloat.ltb hi x | None => false end.
Definition rejects (rng : gmap string float) (x : float) : bool :=
  if below_min rng x then true else above_max rng x.

(** One [if reading.<field> is not None:] block: [true] when it returns. *)
Definition block_rejects (ranges : gmap string (gmap string float))
    (field : string) (value : option float) : bool :=
  match value with
  | Some x => rejects (default ∅ (ranges !! field)) x
  | None => false
  end.

Definition validate_reading (self : SensorReader) (reading : SensorReading)
    : bool :=
  if negb (is_valid reading) then false
  else if negb (SensorType (reader_type self)) then false  (* ValueError *)
  else
    let ranges := default ∅ (SENSOR_RANGES !! reader_type self) in
    if block_rejects ranges "temperature" (temperature reading) then false
    else if block_rejects ranges "humidity" (humidity reading) then false
    else if block_rejects ranges "pressure" (pressure reading) then false
    else true.

(** *** The [read] methods *)

(** [SensorReading(sensor_id=self.sensor_id, sensor_type=self.sensor_type)]. *)
Definition new_reading (self : SensorReader) (env : ReadEnv) : SensorReading :=
  mkReading None None None (now env) (reader_id self) (reader_type self) None.

(** The [except Exception as e] handler of the hardware readers. *)
Definition read_failed (msg : string) (reading : SensorReading)
    (self : SensorReader) : SensorReading * SensorReader :=
  (set_error (Some msg) reading,
   with_state (kind self) (_last_reading self) (_error_count self + 1) self).

(** [DHT11Reader.read] (lines 149-187). *)
Definition DHT11Reader_read (sensor : bool) (self : SensorReader)
    (env : ReadEnv) : SensorReading * SensorReader :=
  let reading := new_reading self env in
  if sensor && HAS_DHT then
    match hw_temperature env with
    | Raise msg => read_failed msg reading self
    | Ok temperature =>
        match hw_humidity env with
        | Raise msg => read_failed msg reading self
        | Ok humidity =>
            match temperature, humidity with
            | Some t, Some h =>
                let reading := set_temperature (Some (round t 1)) reading in
                let reading := set_humidity (Some (round h 1)) reading in
                (reading, with_state (kind self) (Some reading) 0 self)
            | _, _ =>
                (set_error (Some "Sensor returned None values") reading,
                 with_state (kind self) (_last_reading self)
                            (_error_count self + 1) self)
            end
        end
    end
  else
    (* Mock data for testing *)
    let reading :=
      set_temperature (Some (round (20 + uniform1 env)%float 1)) reading in
    let reading :=
      set_humidity (Some (round (50 + uniform2 env)%float 1)) reading in
    (reading, self).

(** [DS18B20Reader.read] (lines 206-233). *)
Definition DS18B20Reader_read (sensor : bool) (self : SensorReader)
    (env : ReadEnv) : SensorReading * SensorReader :=
  let reading := new_reading self env in
  if sensor && HAS_DS18B20 then
    match hw_get_temperature env with
    | Raise msg => read_failed msg reading self
    | Ok t =>
        let reading := set_temperature (Some (round t 2)) reading in
        (reading, with_state (kind self) (Some reading) 0 self)
    end
  else
    let reading :=
      set_temperature (Some (round (20 + uniform1 env)%float 2)) reading in
    (reading, self).

(** [MockSensorReader.read] (lines 244-266). *)
Definition MockSensorReader_read (base_temp base_humidity drift : float)
    (self : SensorReader) (env : ReadEnv) : SensorReading * SensorReader :=
  let drift := (drift + uniform1 env)%float in
  let drift := py_max (-2)%float (py_min 2%float drift) in
  let k := MockSensorReader base_temp base_humidity drift in
  let reading :=
    mkReading (Some (round (base_temp + drift + uniform2 env)%float 1))
              (Some (round (base_humidity + uniform3 env)%float 1))
              None (now env) (reader_id self) (reader_type self) None in
  if PrimFloat.ltb (random_random env) 0x1.999999999999ap-5%float then
    (set_error (Some "Simulated sensor error") reading,
     with_state k (_last_reading self) (_error_count self + 1) self)
  else
    (reading,
     with_state k (Some reading) (Z.max 0 (_error_count self - 1)) self).

(** Dynamic dispatch of [sensor.read()]; the base class raises
    [NotImplementedError], whose [str] is empty. *)
Definition read (self : SensorReader) (env : ReadEnv)
    : Result SensorReading * SensorReader :=
  match kind self with
  | BaseReader => (Raise "", self)
  | DHT11Reader _ sensor =>
      let '(r, self') := DHT11Reader_read sensor self env in (Ok r, self')
  | DS18B20Reader sensor =>
      let '(r, self') := DS18B20Reader_read sensor self env in (Ok r, self')
  | MockSensorReader bt bh d =>
      let '(r, self') := MockSensorReader_read bt bh d self env in
      (Ok r, self')
  end.

(** *** SensorManager *)

(** [SensorManager.read_all] (lines 300-319): the loop over
    [self.sensors.items()], threading the [readings] dictionary and
    rebuilding the dictionary of the (mutated) sensor objects. [env]
    gives each sensor its outside world for this cycle. *)
Definition read_one (env : string -> ReadEnv) (sensor_id : string)
    (sensor : SensorReader) : SensorReading * SensorReader :=
  match read sensor (env sensor_id) with
  | (Ok reading, sensor') => (reading, sensor')
  | (Raise msg, sensor') =>
      (mkReading None None None (now (env sensor_id)) sensor_id ""
                 (Some msg), sensor')
  end.

Fixpoint read_all_loop (env : string -> ReadEnv)
    (items : list (string * SensorReader)) (readings : dict SensorReading)
    : dict SensorReading * dict SensorReader :=
  match items with
  | [] => (readings, [])
  | (sensor_id, sensor) :: rest =>
      let '(reading, sensor') := read_one env sensor_id sensor in
      let '(readings', rest') :=
        read_all_loop env rest (dict_set sensor_id reading readings) in
      (readings', (sensor_id, sensor') :: rest')
  end.

Definition read_all (env : string -> ReadEnv) (sensors : dict SensorReader)
    : dict SensorReading * dict SensorReader :=
  read_all_loop env sensors [].

End SensorReader.

(** ** mqtt_client.py *)

Inductive LogLevel : Type := DEBUG | INFO | WARNING | ERROR.

(** The calls the client makes on the paho transport object
    ([self.client.<method>]), on [time] and on its heartbeat thread, and the
    user callbacks it invokes. *)
Inductive Effect : Type :=
| Connect (host : string) (port keepalive : Z)
| LoopStart
| LoopStop
| Disconnect
| Publish (topic : string) (payload : JValue) (qos : Z) (retain : bool)
| Subscribe (topic : string) (qos : Z)
| Reconnect
| Sleep (delay : Z)
| ThreadStart
| ThreadJoin (timeout : Z)
| EventWait (timeout : Z)
| Callback (name : string).

(** The connection settings read with [config.get]. *)
Record MQTTConfig : Type := mkConfig {
  cfg_host : option string;
  cfg_port : option Z;
  cfg_keepalive : option Z;
  cfg_max_reconnect_attempts : option Z;
  cfg_heartbeat_interval : option Z;
  cfg_mock_mode : option bool
}.

Definition MQTT_ERR_SUCCESS : Z := 0.

Module MQTT.

(** The fields of [MQTTClient] (lines 27-53). [client] tells whether
    [self.client] is a paho client ([true]) or [None];
    [_heartbeat_thread] is [None], or a thread with its [is_alive()];
    a callback field tells whether a callable is installed. *)
Record MQTTClient : Type := mkClient {
  config : MQTTConfig;
  client_id : string;
  connected : bool;
  reconnect_attempts : Z;
  max_reconnect_attempts : Z;
  _stop_event : bool;
  _heartbeat_thread : option bool;
  on_message_callback : bool;
  on_connect_callback : bool;
  on_disconnect_callback : bool;
  client : bool
}.

Definition set_connected (b : bool) (c : MQTTClient) : MQTTClient :=
  mkClient (config c) (client_id c) b (reconnect_attempts c)
    (max_reconnect_attempts c) (_stop_event c) (_heartbeat_thread c)
    (on_message_callback c) (on_connect_callback c)
    (on_disconnect_callback c) (client c).
Definition set_reconnect_attempts (n : Z) (c : MQTTClient) : MQTTClient :=
  mkClient (config c) (client_id c) (connected c) n
    (max_reconnect_attempts c) (_stop_event c) (_heartbeat_thread c)
    (on_message_callback c) (on_connect_callback c)
    (on_disconnect_callback c) (client c).
Definition set_stop_event (b : bool) (c : MQTTClient) : MQTTClient :=
  mkClient (config c) (client_id c) (connected c) (reconnect_attempts c)
    (max_reconnect_attempts c) b (_heartbeat_thread c)
    (on_message_callback c) (on_connect_callback c)
    (on_disconnect_callback c) (client c).
Definition set_heartbeat_thread (t : option bool) (c : MQTTClient)
    : MQTTClient :=
  mkClient (config c) (client_id c) (connected c) (reconnect_attempts c)
    (max_reconnect_attempts c) (_stop_event c) t
    (on_message_callback c) (on_connect_callback c)
    (on_disconnect_callback c) (client c).

(** [MQTTClient.__init__] (lines 27-53). [_setup_client] only configures
    the transport object (callbacks, credentials, TLS, last will) and
    writes no field of [self]. *)
Definition __init__ (HAS_MQTT : bool) (uuid_hex : string)
    (config : MQTTConfig) (client_id : option string) : MQTTClient :=
  let cid := match client_id with
             | Some s => if String.eqb s "" then "iot_client_" ++ uuid_hex
                         else s
             | None => "iot_client_" ++ uuid_hex
             end in
  mkClient config cid false 0
    (default 10 (cfg_max_reconnect_attempts config))
    false None false false false HAS_MQTT.

(** The state the methods run in: the object, the calls made so far (oldest
    first) and the log. *)
Record World : Type := mkWorld {
  self : MQTTClient;
  calls : list Effect;
  log : list (LogLevel * string)
}.

(** A method body: state in, result or exception and state out. *)
Definition M (A : Type) : Type := World -> Result A * World.

#[global] Instance M_ret : MRet M := fun A a w => (Ok a, w).
#[global] Instance M_bind : MBind M := fun A B f m w =>
  match m w with
  | (Ok a, w') => f a w'
  | (Raise msg, w') => (Raise msg, w')
  end.

Definition get : M MQTTClient := fun w => (Ok (self w), w).
Definition modify (f : MQTTClient -> MQTTClient) : M unit :=
  fun w => (Ok tt, mkWorld (f (self w)) (calls w) (log w)).
Definition logger (lvl : LogLevel) (msg : string) : M unit :=
  fun w => (Ok tt, mkWorld (self w) (calls w) (log w ++ [(lvl, msg)])).
Definition raise {A} (msg : string) : M A := fun w => (Raise msg, w).

(** [try: body except Exception as e: handler(str(e))]. *)
Definition try_except {A} (body : M A) (handler : string -> M A) : M A :=
  fun w =>
    match body w with
    | (Ok a, w') => (Ok a, w')
    | (Raise msg, w') => handler msg w'
    end.

Section Methods.

(** The outside world: what the transport answers to a call given the
    calls made before it (a return code, or an exception), the clock,
    and the topic templates of [shared/constants.py], which is not part
    of the sources ([MQTT_TOPICS key client_id] is the formatted topic). *)
Variable transport : list Effect -> Effect -> Result Z.
Variable clock : list Effect -> Z.
Variable MQTT_TOPICS : string -> string -> string.

(** Make a call: it is recorded, then answered. *)
Definition call (e : Effect) : M Z :=
  fun w =>
    (transport (calls w) e, mkWorld (self w) (calls w ++ [e]) (log w)).

(** An effect that returns nothing and cannot fail. *)
Definition perform (e : Effect) : M unit :=
  fun w => (Ok tt, mkWorld (self w) (calls w ++ [e]) (log w)).

Definition datetime_now : M Z := fun w => (Ok (clock (calls w)), w).

(** [connect] (lines 99-122). *)
Definition connect : M bool :=
  c ← get;
  if negb (client c) then
    logger ERROR "MQTT client not available";; mret false
  else
    try_except
      (let host := default "localhost" (cfg_host (config c)) in
       let port := default 1883 (cfg_port (config c)) in
       let keepalive := default 60 (cfg_keepalive (config c)) in
       logger INFO "Connecting to MQTT broker";;
       result ← call (Connect host port keepalive);
       if Z.eqb result MQTT_ERR_SUCCESS then
         call LoopStart;; mret true
       else
         logger ERROR "Failed to connect to MQTT broker";; mret false)
      (fun e => logger ERROR "MQTT connection error";; mret false).

(** [_publish] (lines 201-219). *)
Definition _publish (topic : string) (payload : JValue) (qos : Z)
    (retain : bool) : M bool :=
  c ← get;
  if negb (client c) || negb (connected c) then mret false
  else
    try_except
      (rc ← call (Publish topic payload qos retain);
       if Z.eqb rc MQTT_ERR_SUCCESS then
         logger INFO "publish";; mret true
       else
         logger ERROR "Failed to publish";; mret false)
      (fun e => logger ERROR "Publish error";; mret false).

(** [publish_sensor_data] (lines 143-159). *)
Definition publish_sensor_data (sensor_id : string) (data : JValue)
    : M bool :=
  c ← get;
  if negb (connected c) then
    logger WARNING "Not connected to MQTT broker";; mret false
  else
    let topic := MQTT_TOPICS "sensor_data" (client_id c) in
    t ← datetime_now;
    let payload := JDict [("sensor_id", JStr sensor_id);
                          ("client_id", JStr (client_id c));
                          ("data", data);
                          ("timestamp", JTime t);
                          ("message_type", JStr "sensor_data")] in
    _publish topic payload 1 false.

(** [publish_status] (lines 161-173). *)
Definition publish_status (status : string) (reason : option string)
    : M bool :=
  c ← get;
  let topic := MQTT_TOPICS "sensor_status" (client_id c) in
  t ← datetime_now;
  let payload := JDict [("client_id", JStr (client_id c));
                        ("status", JStr status);
                        ("timestamp", JTime t);
                        ("reason", opt_str reason);
                        ("message_type", JStr "sensor_status")] in
  _publish topic payload 1 true.

(** [publish_heartbeat] (lines 175-185). *)
Definition publish_heartbeat : M bool :=
  c ← get;
  let topic := MQTT_TOPICS "heartbeat" (client_id c) in
  t ← datetime_now;
  let payload := JDict [("client_id", JStr (client_id c));
                        ("timestamp", JTime t);
                        ("message_type", JStr "heartbeat")] in
  _publish topic payload 1 false.

(** [publish_debug] (lines 187-199); [data or {}]. *)
Definition publish_debug (message : string) (data : option JValue)
    : M bool :=
  c ← get;
  let topic := MQTT_TOPICS "debug" (client_id c) in
  t ← datetime_now;
  let payload := JDict [("client_id", JStr (client_id c));
                        ("message", JStr message);
                        ("data", default (JDict []) data);
                        ("timestamp", JTime t);
                        ("message_type", JStr "debug")] in
  _publish topic payload 1 false.

(** [subscribe] (lines 221-237). *)
Definition subscribe (topic_pattern : string) (qos : Z) : M bool :=
  c ← get;
  if negb (client c) || negb (connected c) then mret false
  else
    try_except
      (rc ← call (Subscribe topic_pattern qos);
       if Z.eqb rc MQTT_ERR_SUCCESS then
         logger INFO "subscribe";; mret true
       else
         logger ERROR "Failed to subscribe";; mret false)
      (fun e => logger ERROR "Subscribe error";; mret false).

(** [disconnect] (lines 124-141). [loop_stop] and the transport's
    [disconnect] are outside any [try]: what they raise propagates. *)
Definition disconnect : M unit :=
  c ← get;
  if negb (client c) then mret tt
  else
    modify (set_stop_event true);;
    (if is_none (_heartbeat_thread c) then mret tt
     else perform (ThreadJoin 5));;
    (if connected c then
       publish_status "offline" (Some "graceful_disconnect");; mret tt
     else mret tt);;
    call LoopStop;;
    call Disconnect;;
    logger INFO "Disconnected from MQTT broker".

(** [_start_heartbeat] (lines 325-331). *)
Definition _start_heartbeat : M unit :=
  c ← get;
  match _heartbeat_thread c with
  | Some true => mret tt
  | _ => modify (set_heartbeat_thread (Some true));; perform ThreadStart
  end.

(** [_attempt_reconnect] (lines 308-323). With [self.client] absent the
    attribute access raises inside the [try]. The counter starts at 0
    and only grows or is reset to 0, so [2 ** n] is an integer power. *)
Definition _attempt_reconnect : M unit :=
  c ← get;
  if Z.leb (max_reconnect_attempts c) (reconnect_attempts c) then
    logger ERROR "Max reconnection attempts reached"
  else
    let attempts := reconnect_attempts c + 1 in
    modify (set_reconnect_attempts attempts);;
    let delay := Z.min 30 (2 ^ attempts) in
    logger INFO "Attempting reconnection";;
    perform (Sleep delay);;
    try_except
      (if client c then call Reconnect;; mret tt
       else raise "'NoneType' object has no attribute 'reconnect'")
      (fun e => logger ERROR "Reconnection failed").

(** [_on_connect] (lines 239-259). *)
Definition _on_connect (rc : Z) : M unit :=
  if Z.eqb rc 0 then
    modify (set_connected true);;
    modify (set_reconnect_attempts 0);;
    logger INFO "Connected to MQTT broker";;
    c ← get;
    subscribe (MQTT_TOPICS "config" (client_id c)) 1;;
    publish_status "online" (Some "connected");;
    _start_heartbeat;;
    (if on_connect_callback c then perform (Callback "on_connect")
     else mret tt)
  else
    logger ERROR "Failed to connect to MQTT broker".

(** [_on_disconnect] (lines 261-271). *)
Definition _on_disconnect (rc : Z) : M unit :=
  modify (set_connected false);;
  logger WARNING "Disconnected from MQTT broker";;
  c ← get;
  (if on_disconnect_callback c then perform (Callback "on_disconnect")
   else mret tt);;
  if negb (Z.eqb rc MQTT_ERR_SUCCESS) && negb (_stop_event c) then
    _attempt_reconnect
  else mret tt.

(** ['config' in topic]. *)
Definition contains (needle haystack : string) : bool :=
  negb (is_none (String.index 0 needle haystack)).

(** [_on_message] (lines 273-289); [payload] is what
    [json.loads(msg.payload.decode())] yields. *)
Definition _on_message (topic : string) (payload : Result JValue)
    : M unit :=
  try_except
    (match payload with
     | Raise e => raise e
     | Ok _ =>
         logger INFO "message_received";;
         (if contains "config" topic then
            logger INFO "Received configuration update"
          else mret tt);;
         c ← get;
         if on_message_callback c then perform (Callback "on_message")
         else mret tt
     end)
    (fun e => logger ERROR "Error processing message").

(** One turn of the [while] loop of [_heartbeat_loop] (lines 333-341):
    [false] when the loop condition fails and the thread ends. *)
Definition _heartbeat_iteration : M bool :=
  c ← get;
  if _stop_event c then mret false
  else
    (if connected c then publish_heartbeat;; mret tt else mret tt);;
    perform
      (EventWait (default 30 (cfg_heartbeat_interval (config c))));;
    mret true.

Definition is_connected (c : MQTTClient) : bool := connected c.

(** [get_status] (lines 347-355). *)
Definition get_status (c : MQTTClient) : dict JValue :=
  [("client_id", JStr (client_id c));
   ("connected", JBool (connected c));
   ("reconnect_attempts", JInt (reconnect_attempts c));
   ("broker_host", opt_str (cfg_host (config c)));
   ("broker_port", opt_int (cfg_port (config c)))].

(** *** Runs of the client *)

(** What can happen to a client: a method called by the application, a
    callback fired by the transport's network loop, or a turn of the
    heartbeat thread. *)
Inductive Event : Type :=
| CallConnect
| CallDisconnect
| CallPublishSensorData (sensor_id : string) (data : JValue)
| CallPublishStatus (status : string) (reason : option string)
| CallPublishHeartbeat
| CallPublishDebug (message : string) (data : option JValue)
| CallSubscribe (topic_pattern : string) (qos : Z)
| OnConnect (rc : Z)
| OnDisconnect (rc : Z)
| OnMessage (topic : string) (payload : Result JValue)
| HeartbeatTick.

Definition ignore {A} (m : M A) : M unit := m;; mret tt.

(** The heartbeat thread, when it is alive, takes one turn. *)
Definition heartbeat_tick : M unit :=
  fun w =>
    match _heartbeat_thread (self w) with
    | Some true =>
        (again ← _heartbeat_iteration;
         if again : bool then mret tt
         else modify (set_heartbeat_thread (Some false))) w
    | _ => (Ok tt, w)
    end.

Definition step (e : Event) : M unit :=
  match e with
  | CallConnect => ignore connect
  | CallDisconnect => disconnect
  | CallPublishSensorData sensor_id data =>
      ignore (publish_sensor_data sensor_id data)
  | CallPublishStatus status reason => ignore (publish_status status reason)
  | CallPublishHeartbeat => ignore publish_heartbeat
  | CallPublishDebug message data => ignore (publish_debug message data)
  | CallSubscribe topic_pattern qos => ignore (subscribe topic_pattern qos)
  | OnConnect rc => _on_connect rc
  | OnDisconnect rc => _on_disconnect rc
  | OnMessage topic payload => _on_message topic payload
  | HeartbeatTick => heartbeat_tick
  end.

(** A run: each event is handled in the state its predecessor left; an
    exception ends the handler that raised it, not the client. *)
Fixpoint run (events : list Event) (w : World) : World :=
  match events with
  | [] => w
  | e :: rest => run rest (snd (step e w))
  end.

End Methods.

End MQTT.

(** [MockMQTTClient] (lines 357-416). *)
Module Mock.

Record MockMQTTClient : Type := mkMock {
  client_id : string;
  config : MQTTConfig;
  connected : bool;
  published_messages : list (string * JValue)
}.

Definition __init__ (uuid_hex : string) (config : MQTTConfig)
    (client_id : option string) : MockMQTTClient :=
  let cid := match client_id with
             | Some s => if String.eqb s "" then "mock_client_" ++ uuid_hex
                         else s
             | None => "mock_client_" ++ uuid_hex
             end in
  mkMock cid config false [].

Definition set_connected (b : bool) (m : MockMQTTClient) : MockMQTTClient :=
  mkMock (client_id m) (config m) b (published_messages m).

Definition connect (m : MockMQTTClient) : bool * MockMQTTClient :=
  (true, set_connected true m).

Definition disconnect (m : MockMQTTClient) : MockMQTTClient :=
  set_connected false m.

Definition publish_sensor_data (t : Z) (sensor_id : string) (data : JValue)
    (m : MockMQTTClient) : bool * MockMQTTClient :=
  if negb (connected m) then (false, m)
  else
    let message := JDict [("sensor_id", JStr sensor_id);
                          ("data", data);
                          ("timestamp", JTime t)] in
    (true, mkMock (client_id m) (config m) (connected m)
                  (published_messages m ++ [("sensor_data", message)])).

Definition publish_status (t : Z) (status : string) (reason : option string)
    (m : MockMQTTClient) : bool * MockMQTTClient :=
  if negb (connected m) then (false, m)
  else
    let message := JDict [("status", JStr status);
                          ("reason", opt_str reason);
                          ("timestamp", JTime t)] in
    (true, mkMock (client_id m) (config m) (connected m)
                  (published_messages m ++ [("status", message)])).

Definition publish_heartbeat (m : MockMQTTClient) : bool := connected m.
Definition publish_debug (message : string) (data : option JValue)
    (m : MockMQTTClient) : bool := connected m.
Definition is_connected (m : MockMQTTClient) : bool := connected m.

Definition get_status (m : MockMQTTClient) : dict JValue :=
  [("client_id", JStr (client_id m));
   ("connected", JBool (connected m));
   ("published_count", JInt (Z.of_nat (length (published_messages m))))].

End Mock.

(** ** main.py *)

Module Agent.

(** What [create_mqtt_client] returns: a real client in its world, or the
    mock. *)
Inductive Broker : Type :=
| Real (w : MQTT.World)
| Mocked (m : Mock.MockMQTTClient).

(** [create_mqtt_client] (lines 418-423). *)
Definition create_mqtt_client (HAS_MQTT : bool) (uuid_hex : string)
    (config : MQTTConfig) (client_id : option string) : Broker :=
  if HAS_MQTT && negb (default false (cfg_mock_mode config)) then
    Real (MQTT.mkWorld (MQTT.__init__ HAS_MQTT uuid_hex config client_id) [] [])
  else
    Mocked (Mock.__init__ uuid_hex config client_id).

(** What the agent does to its collaborators: a call of the broker client's
    [publish_sensor_data] with its result, and a wait on the shutdown event. *)
Inductive Action : Type :=
| PublishSensorData (sensor_id : string) (data : JValue) (success : bool)
| Wait (seconds : Z).

(** The fields of [IoTSensorClient] the loop uses; [sensor_manager] holds the
    manager's [sensors] dictionary. *)
Record IoTSensorClient : Type := mkAgent {
  update_interval : option Z;
  sensor_manager : option (dict SensorReader);
  mqtt_client : option Broker;
  running : bool;
  shutdown_event : bool;
  actions : list Action;
  log : list (LogLevel * string)
}.

Definition logger (lvl : LogLevel) (msg : string) (a : IoTSensorClient)
    : IoTSensorClient :=
  mkAgent (update_interval a) (sensor_manager a) (mqtt_client a) (running a)
          (shutdown_event a) (actions a) (log a ++ [(lvl, msg)]).

Definition act (x : Action) (a : IoTSensorClient) : IoTSensorClient :=
  mkAgent (update_interval a) (sensor_manager a) (mqtt_client a) (running a)
          (shutdown_event a) (actions a ++ [x]) (log a).

Definition set_mqtt_client (b : option Broker) (a : IoTSensorClient)
    : IoTSensorClient :=
  mkAgent (update_interval a) (sensor_manager a) b (running a)
          (shutdown_event a) (actions a) (log a).

Definition set_sensor_manager (m : option (dict SensorReader))
    (a : IoTSensorClient) : IoTSensorClient :=
  mkAgent (update_interval a) m (mqtt_client a) (running a)
          (shutdown_event a) (actions a) (log a).

Section Loop.

Variable HAS_DHT : bool.
Variable HAS_DS18B20 : bool.
Variable round : float -> Z -> float.
Variable transport : list Effect -> Effect -> Result Z.
Variable clock : list Effect -> Z.
Variable mock_clock : list (string * JValue) -> Z.
Variable MQTT_TOPICS : string -> string -> string.

(** [self.mqtt_client.is_connected()] and
    [self.mqtt_client.publish_sensor_data(sensor_id, data)], dispatched on
    the class of the client. The real client's helper raises nothing. *)
Definition is_connected (b : Broker) : bool :=
  match b with
  | Real w => MQTT.is_connected (MQTT.self w)
  | Mocked m => Mock.is_connected m
  end.

Definition publish_sensor_data (sensor_id : string) (data : JValue)
    (b : Broker) : Result bool * Broker :=
  match b with
  | Real w =>
      let '(r, w') :=
        MQTT.publish_sensor_data transport clock MQTT_TOPICS sensor_id data w in
      (r, Real w')
  | Mocked m =>
      let '(r, m') :=
        Mock.publish_sensor_data (mock_clock (Mock.published_messages m))
                                 sensor_id data m in
      (Ok r, Mocked m')
  end.

(** [_publish_sensor_reading] (lines 161-173); an exception leaves through
    the [Raise] result. *)
Definition _publish_sensor_reading (sensor_id : string)
    (reading : SensorReading) (a : IoTSensorClient)
    : Result unit * IoTSensorClient :=
  match mqtt_client a with
  | None => (Ok tt, logger WARNING "MQTT client not connected, skipping publish" a)
  | Some b =>
      if negb (is_connected b) then
        (Ok tt, logger WARNING "MQTT client not connected, skipping publish" a)
      else
        let data := to_dict reading in
        match publish_sensor_data sensor_id data b with
        | (Ok success, b') =>
            let a := act (PublishSensorData sensor_id data success)
                         (set_mqtt_client (Some b') a) in
            (Ok tt,
             if success then logger DEBUG "Published sensor data" a
             else logger ERROR "Failed to publish sensor data" a)
        | (Raise e, b') => (Raise e, set_mqtt_client (Some b') a)
        end
  end.

(** The [for sensor_id, reading in readings.items()] loop (lines 148-152). *)
Fixpoint publish_readings (readings : dict SensorReading)
    (a : IoTSensorClient) : Result unit * IoTSensorClient :=
  match readings with
  | [] => (Ok tt, a)
  | (sensor_id, reading) :: rest =>
      if is_valid reading then
        match _publish_sensor_reading sensor_id reading a with
        | (Ok _, a') => publish_readings rest a'
        | (Raise e, a') => (Raise e, a')
        end
      else
        publish_readings rest (logger WARNING "Invalid reading from sensor" a)
  end.

(** The body of the [while] loop of [_main_loop] (lines 143-159): one poll
    cycle. With no sensor manager the attribute access raises. *)
Definition poll_cycle (env : string -> ReadEnv) (a : IoTSensorClient)
    : IoTSensorClient :=
  let tried :=
    match sensor_manager a with
    | None => (Raise "'NoneType' object has no attribute 'read_all'", a)
    | Some sensors =>
        let '(readings, sensors') :=
          read_all HAS_DHT HAS_DS18B20 round env sensors in
        match publish_readings readings
                (set_sensor_manager (Some sensors') a) with
        | (Ok _, a') =>
            (Ok tt, act (Wait (default 30 (update_interval a'))) a')
        | (Raise e, a') => (Raise e, a')
        end
    end in
  match tried with
  | (Ok _, a') => a'
  | (Raise e, a') => act (Wait 5) (logger ERROR "Error in main loop" a')
  end.

(** [_main_loop] (lines 138-159); each element of [cycles] is the outside
    world of one turn, and the flags are those another thread has set. *)
Fixpoint _main_loop (cycles : list (string -> ReadEnv)) (a : IoTSensorClient)
    : IoTSensorClient :=
  match cycles with
  | [] => a
  | env :: rest =>
      if running a && negb (shutdown_event a) then
        _main_loop rest (poll_cycle env a)
      else a
  end.

End Loop.

End Agent.

(** * Properties *)

(** ** Dictionaries *)

Lemma dict_set_fresh {V} (k : string) (v : V) (d : dict V) :
  k ∉ keys d -> dict_set k v d = (d ++ [(k, v)])%list.
Proof.
  induction d as [|[k' v'] d IH]; simpl; intros Hk; [reflexivity|].
  apply not_elem_of_cons in Hk as [Hne Hk].
  destruct (String.eqb_spec k k') as [->|_]; [contradiction|].
  now rewrite IH.
Qed.

Lemma dict_get_In {V} (k : string) (v : V) (d : dict V) :
  NoDup (keys d) -> In (k, v) d -> dict_get k d = Some v.
Proof.
  induction d as [|[k' v'] d IH]; simpl; [intros _ []|].
  intros Hnd Hin. apply NoDup_cons in Hnd as [Hk' Hnd].
  destruct (String.eqb_spec k k') as [->|Hne].
  - destruct Hin as [Heq|Hin]; [congruence|].
    exfalso. apply Hk'. apply list_elem_of_In.
    change k' with (fst (k', v)). now apply in_map.
  - destruct Hin as [Heq|Hin]; [congruence|]. now apply IH.
Qed.

(** ** SensorReading and SensorReader *)

(** C5: [is_valid] holds exactly when [error] is [None] and at least one of
    [temperature], [humidity], [pressure] is not [None]. *)
Theorem is_valid_iff (r : SensorReading) :
  is_valid r = true <->
  error r = None /\
  (temperature r <> None \/ humidity r <> None \/ pressure r <> None).
Proof.
  unfold is_valid.
  destruct (error r), (temperature r), (humidity r), (pressure r); simpl;
    split; try discriminate; try (intros [? _]; discriminate);
    try (intros _; split; [reflexivity|]; auto; fail);
    try reflexivity.
  intros [_ [H|[H|H]]]; now contradiction H.
Qed.

Section Validation.

Variable SensorType : string -> bool.
Variable SENSOR_RANGES : gmap string (gmap string (gmap string float)).

(** The range the table configures for a field of a sensor type; an absent
    sensor type or field configures no bound. *)
Definition configured_range (ty field : string) : gmap string float :=
  default ∅ (default ∅ (SENSOR_RANGES !! ty) !! field).

(** A value lies outside a range: below its minimum or above its maximum. *)
Definition outside (rng : gmap string float) (x : float) : Prop :=
  (exists lo, rng !! "min" = Some lo /\ PrimFloat.ltb x lo = true) \/
  (exists hi, rng !! "max" = Some hi /\ PrimFloat.ltb hi x = true).

Definition numeric_fields (r : SensorReading) : list (string * option float) :=
  [("temperature", temperature r); ("humidity", humidity r);
   ("pressure", pressure r)].

(** Some present numeric field of the reading lies outside the range
    configured for the reader's sensor type. *)
Definition some_field_outside (self : SensorReader) (r : SensorReading)
    : Prop :=
  exists field x,
    In (field, Some x) (numeric_fields r) /\
    outside (configured_range (reader_type self) field) x.

(** The sentence about [validate_reading] as the specification words it:
    rejected whenever a present field is outside its range, accepted
    otherwise. *)
Definition rejects_exactly_out_of_range (self : SensorReader)
    (r : SensorReading) : Prop :=
  (some_field_outside self r ->
   validate_reading SensorType SENSOR_RANGES self r = false) /\
  (~ some_field_outside self r ->
   validate_reading SensorType SENSOR_RANGES self r = true).

Lemma rejects_outside (rng : gmap string float) (x : float) :
  rejects rng x = true <-> outside rng x.
Proof.
  unfold rejects, below_min, above_max, outside.
  destruct (rng !! "min") as [lo|], (rng !! "max") as [hi|];
    try destruct (PrimFloat.ltb x lo) eqn:Hlo;
    try destruct (PrimFloat.ltb hi x) eqn:Hhi;
    split; intros H; try discriminate; try reflexivity; eauto;
    destruct H as [(y & Hy & Hlt)|(y & Hy & Hlt)]; congruence.
Qed.

Lemma block_rejects_outside (self : SensorReader) (field : string)
    (value : option float) :
  block_rejects (default ∅ (SENSOR_RANGES !! reader_type self)) field value
    = true <->
  exists x, value = Some x /\
            outside (configured_range (reader_type self) field) x.
Proof.
  unfold block_rejects, configured_range. destruct value as [x|].
  - rewrite rejects_outside. split; [eauto|]. now intros (y & [= <-] & H).
  - split; [discriminate|]. now intros (y & [=] & _).
Qed.

Lemma some_field_outside_blocks (self : SensorReader) (r : SensorReading) :
  some_field_outside self r <->
  block_rejects (default ∅ (SENSOR_RANGES !! reader_type self))
                "temperature" (temperature r) = true \/
  block_rejects (default ∅ (SENSOR_RANGES !! reader_type self))
                "humidity" (humidity r) = true \/
  block_rejects (default ∅ (SENSOR_RANGES !! reader_type self))
                "pressure" (pressure r) = true.
Proof.
  rewrite !block_rejects_outside. unfold some_field_outside, numeric_fields.
  split.
  - intros (f & x & Hin & Hout). simpl in Hin.
    destruct Hin as [[= <- Hv]|[[= <- Hv]|[[= <- Hv]|[]]]]; eauto 6.
  - intros [(x & Hv & H)|[(x & Hv & H)|(x & Hv & H)]];
      eexists _, x; (split; [|exact H]); rewrite Hv; simpl; auto.
Qed.

(** C6, as the code has it: a reading is accepted exactly when it is valid,
    the reader's sensor type is a member of [SensorType], and no present
    numeric field lies outside the range configured for that type. *)
Theorem validate_reading_accepts_iff (self : SensorReader)
    (r : SensorReading) :
  validate_reading SensorType SENSOR_RANGES self r = true <->
  is_valid r = true /\ SensorType (reader_type self) = true /\
  ~ some_field_outside self r.
Proof.
  rewrite some_field_outside_blocks. unfold validate_reading.
  destruct (is_valid r); simpl; [|split; [discriminate|now intros [? _]]].
  destruct (SensorType (reader_type self)); simpl;
    [|split; [discriminate|now intros (_ & ? & _)]].
  destruct (block_rejects _ "temperature" _);
    [split; [discriminate|intros (_ & _ & H); exfalso; auto]|].
  destruct (block_rejects _ "humidity" _);
    [split; [discriminate|intros (_ & _ & H); exfalso; auto]|].
  destruct (block_rejects _ "pressure" _);
    [split; [discriminate|intros (_ & _ & H); exfalso; auto]|].
  split; [|reflexivity]. intros _. repeat split.
  intros [H|[H|H]]; discriminate.
Qed.

End Validation.

(** Modelled from the spec: [shared/constants.py] is not part of the
    sources; the specification gives a DHT11 temperature maximum of about
    50. A table and an enumeration of that shape, used to run
    [validate_reading] on concrete readings. *)
Definition sample_SensorType (s : string) : bool :=
  bool_decide (s ∈ ["DHT11"; "DHT22"; "DS18B20"]).

Definition sample_SENSOR_RANGES : gmap string (gmap string (gmap string float)) :=
  {[ "DHT11" :=
       {[ "temperature" := {[ "min" := 0%float; "max" := 50%float ]};
          "humidity" := {[ "min" := 20%float; "max" := 90%float ]} ]} ]}.

Definition sample_reader : SensorReader :=
  mkReader (DHT11Reader 4 true) "sensor_001" "DHT11" None 0 5.

Definition reading_of (t : option float) (e : option string) : SensorReading :=
  mkReading t None None 0 "sensor_001" "DHT11" e.

Example validate_reading_150_rejected :
  validate_reading sample_SensorType sample_SENSOR_RANGES sample_reader
    (reading_of (Some 150%float) None) = false.
Proof. vm_compute. reflexivity. Qed.

Example validate_reading_22_accepted :
  validate_reading sample_SensorType sample_SENSOR_RANGES sample_reader
    (reading_of (Some 22%float) None) = true.
Proof. vm_compute. reflexivity. Qed.

(** A NaN is neither below a minimum nor above a maximum. *)
Example validate_reading_nan_accepted :
  validate_reading sample_SensorType sample_SENSOR_RANGES sample_reader
    (reading_of (Some nan) None) = true.
Proof. vm_compute. reflexivity. Qed.

(** C6, counterexample to the sentence as worded: the reading a DHT11 read
    yields when the driver returns no values has no present field, so none
    is out of range, and [validate_reading] still rejects it. *)
Lemma validate_reading_rejects_without_out_of_range_field :
  ~ rejects_exactly_out_of_range sample_SensorType sample_SENSOR_RANGES
      sample_reader (reading_of None (Some "Sensor returned None values")).
Proof.
  intros [_ Haccept].
  assert (validate_reading sample_SensorType sample_SENSOR_RANGES sample_reader
            (reading_of None (Some "Sensor returned None values")) = true)
    as Habs.
  { apply Haccept. intros (field & x & Hin & _). simpl in Hin.
    destruct Hin as [[=]|[[=]|[[=]|[]]]]. }
  vm_compute in Habs. discriminate.
Qed.

Section Reads.

Variable HAS_DHT : bool.
Variable HAS_DS18B20 : bool.
Variable round : float -> Z -> float.

Local Abbreviation read := (read HAS_DHT HAS_DS18B20 round).
Local Abbreviation read_one := (read_one HAS_DHT HAS_DS18B20 round).
Local Abbreviation read_all_loop := (read_all_loop HAS_DHT HAS_DS18B20 round).
Local Abbreviation read_all := (read_all HAS_DHT HAS_DS18B20 round).

(** A read that raises, or yields an error-tagged reading, leaves
    [_last_reading] as it was, for every reader class. *)
Lemma failed_read_keeps_last_reading (self : SensorReader) (env : ReadEnv) :
  match fst (read self env) with
  | Ok r => error r <> None
  | Raise _ => True
  end ->
  get_last_reading (snd (read self env)) = get_last_reading self.
Proof.
  unfold read, get_last_reading. destruct (kind self) as [|pin s|s|bt bh d].
  - reflexivity.
  - unfold DHT11Reader_read.
    destruct (s && HAS_DHT); [|simpl; intros H; now contradiction H].
    destruct (hw_temperature env) as [[t|]|]; simpl; try reflexivity;
      destruct (hw_humidity env) as [[h|]|]; simpl; try reflexivity.
    intros H; now contradiction H.
  - unfold DS18B20Reader_read.
    destruct (s && HAS_DS18B20); [|simpl; intros H; now contradiction H].
    destruct (hw_get_temperature env); simpl; [|reflexivity].
    intros H; now contradiction H.
  - unfold MockSensorReader_read.
    destruct (PrimFloat.ltb _ _); simpl; [reflexivity|].
    intros H; now contradiction H.
Qed.

(** An error-free reading from the mock reader is stored. *)
Lemma mock_read_stores (self : SensorReader) (env : ReadEnv)
    (bt bh d : float) (r : SensorReading) :
  kind self = MockSensorReader bt bh d ->
  fst (read self env) = Ok r -> error r = None ->
  get_last_reading (snd (read self env)) = Some r.
Proof.
  unfold read, get_last_reading. intros ->. unfold MockSensorReader_read.
  destruct (PrimFloat.ltb _ _); simpl; intros [= <-]; [discriminate|].
  reflexivity.
Qed.

(** An error-free reading from a hardware reader whose driver is in use is
    stored. *)
Lemma driver_read_stores (self : SensorReader) (env : ReadEnv)
    (r : SensorReading) :
  match kind self with
  | DHT11Reader _ sensor => sensor && HAS_DHT = true
  | DS18B20Reader sensor => sensor && HAS_DS18B20 = true
  | _ => False
  end ->
  fst (read self env) = Ok r -> error r = None ->
  get_last_reading (snd (read self env)) = Some r.
Proof.
  unfold read, get_last_reading. destruct (kind self) as [|pin s|s|bt bh d];
    try contradiction.
  - unfold DHT11Reader_read. intros ->.
    destruct (hw_temperature env) as [[t|]|]; simpl;
      try (intros [= <-]; discriminate);
      destruct (hw_humidity env) as [[h|]|]; simpl;
      intros [= <-]; try discriminate; reflexivity.
  - unfold DS18B20Reader_read. intros ->.
    destruct (hw_get_temperature env); simpl; intros [= <-];
      [reflexivity|discriminate].
Qed.

(** C9, the defect: a [DHT11Reader] without a driver object falls back to
    synthetic data, returns an error-free, valid reading, and does not
    store it: [get_last_reading] still answers [None] after the read. *)
Theorem DHT11_fallback_read_is_not_stored (env : ReadEnv) (pin : Z)
    (id ty : string) (errs maxe : Z) :
  let self := mkReader (DHT11Reader pin false) id ty None errs maxe in
  exists r,
    fst (read self env) = Ok r /\ error r = None /\ is_valid r = true /\
    get_last_reading (snd (read self env)) = None.
Proof.
  simpl. eexists. repeat split.
Qed.

(** The same holds for a [DS18B20Reader] without a driver object. *)
Lemma DS18B20_fallback_read_is_not_stored (env : ReadEnv)
    (id ty : string) (errs maxe : Z) :
  let self := mkReader (DS18B20Reader false) id ty None errs maxe in
  exists r,
    fst (read self env) = Ok r /\ error r = None /\ is_valid r = true /\
    get_last_reading (snd (read self env)) = None.
Proof.
  simpl. eexists. repeat split.
Qed.

(** *** read_all *)

(** The reading [read_all] files under a sensor id. *)
Definition filed_reading (env : string -> ReadEnv)
    (item : string * SensorReader) : string * SensorReading :=
  (fst item, fst (read_one env (fst item) (snd item))).

Lemma read_all_loop_readings (env : string -> ReadEnv)
    (items : list (string * SensorReader)) (acc : dict SensorReading) :
  NoDup (keys acc ++ keys items) ->
  fst (read_all_loop env items acc) = (acc ++ map (filed_reading env) items)%list.
Proof.
  revert acc. induction items as [|[id s] items IH]; intros acc Hnd; simpl.
  - now rewrite app_nil_r.
  - destruct (read_one env id s) as [reading s'] eqn:Hone.
    specialize (IH (dict_set id reading acc)).
    destruct (read_all_loop env items (dict_set id reading acc))
      as [readings' rest'] eqn:Hloop.
    simpl in *. unfold filed_reading at 1. simpl. rewrite Hone. simpl.
    apply NoDup_app in Hnd as (Hacc & Hdisj & Hitems).
    apply NoDup_cons in Hitems as [Hid Hitems].
    assert (id ∉ keys acc) as Hfresh.
    { intros Hin. apply (Hdisj _ Hin). left. }
    rewrite dict_set_fresh in IH by exact Hfresh.
    rewrite IH.
    + now rewrite <- app_assoc.
    + unfold keys. rewrite map_app. simpl. rewrite <- app_assoc. simpl.
      apply NoDup_app. repeat split; [exact Hacc| |].
      * intros x Hx Hx'. apply elem_of_cons in Hx' as [->|Hx'];
          [contradiction|]. apply (Hdisj _ Hx). now right.
      * apply NoDup_cons. split; assumption.
Qed.

Lemma keys_filed (env : string -> ReadEnv) (items : dict SensorReader) :
  keys (map (filed_reading env) items) = keys items.
Proof.
  unfold keys. rewrite map_map. reflexivity.
Qed.

(** C8: over a dictionary of sensors (unique ids), [read_all] returns a
    dictionary with the same ids, each once; under each id it files the
    reading the sensor's [read] returned, or, when [read] raised, a reading
    for that id that carries the exception's text as its error. The result
    is a dictionary in every case: nothing propagates. *)
Theorem read_all_one_entry_per_sensor (env : string -> ReadEnv)
    (sensors : dict SensorReader) :
  NoDup (keys sensors) ->
  let readings := fst (read_all env sensors) in
  keys readings = keys sensors /\
  NoDup (keys readings) /\
  forall id sensor, In (id, sensor) sensors ->
    match fst (read sensor (env id)) with
    | Ok reading => dict_get id readings = Some reading
    | Raise msg =>
        exists reading, dict_get id readings = Some reading /\
          sensor_id reading = id /\ error reading = Some msg /\
          is_valid reading = false
    end.
Proof.
  intros Hnd. unfold read_all. simpl.
  rewrite read_all_loop_readings by exact Hnd. simpl.
  rewrite keys_filed. repeat split; [exact Hnd|].
  intros id sensor Hin.
  assert (dict_get id (map (filed_reading env) sensors)
          = Some (fst (read_one env id sensor))) as Hget.
  { apply dict_get_In; [now rewrite keys_filed|].
    change (id, fst (read_one env id sensor))
      with (filed_reading env (id, sensor)).
    now apply in_map. }
  rewrite Hget. unfold read_one.
  destruct (read sensor (env id)) as [[reading|msg] sensor']; simpl.
  - reflexivity.
  - eexists. repeat split.
Qed.

End Reads.

Import MQTT.

(** ** The MQTT client *)

(** *** Invariants of method bodies *)

(** [m] keeps [Inv]: from a state where it holds, the state [m] leaves,
    whether it returns or raises, satisfies it again. *)
Definition preserves {A} (Inv : World -> Prop) (m : M A) : Prop :=
  forall w, Inv w -> Inv (snd (m w)).

Section Preservation.

Variable Inv : World -> Prop.
Variable transport : list Effect -> Effect -> Result Z.
Variable clock : list Effect -> Z.

Lemma pres_ret {A} (a : A) : preserves Inv (mret a).
Proof. intros w H. exact H. Qed.

Lemma pres_raise {A} (msg : string) : preserves Inv (@raise A msg).
Proof. intros w H. exact H. Qed.

Lemma pres_now : preserves Inv (datetime_now clock).
Proof. intros w H. exact H. Qed.

Lemma pres_bind {A B} (m : M A) (f : A -> M B) :
  preserves Inv m -> (forall a, preserves Inv (f a)) ->
  preserves Inv (m ≫= f).
Proof.
  intros Hm Hf w H. unfold mbind, M_bind.
  specialize (Hm w H). destruct (m w) as [[a|msg] w']; simpl in *.
  - now apply Hf.
  - exact Hm.
Qed.

(** Reading [self] gives the object of some state where [Inv] holds. *)
Lemma pres_get {B} (f : MQTTClient -> M B) :
  (forall c, (exists w, Inv w /\ self w = c) -> preserves Inv (f c)) ->
  preserves Inv (get ≫= f).
Proof.
  intros Hf w H. unfold mbind, M_bind, get. apply Hf; eauto.
Qed.

Lemma pres_try {A} (body : M A) (handler : string -> M A) :
  preserves Inv body -> (forall e, preserves Inv (handler e)) ->
  preserves Inv (try_except body handler).
Proof.
  intros Hb Hh w H. unfold try_except.
  specialize (Hb w H). destruct (body w) as [[a|msg] w']; simpl in *.
  - exact Hb.
  - now apply Hh.
Qed.

Lemma pres_logger (lvl : LogLevel) (msg : string) :
  (forall w l, Inv w -> Inv (mkWorld (self w) (calls w) l)) ->
  preserves Inv (logger lvl msg).
Proof. intros Hl w H. now apply Hl. Qed.

Lemma pres_modify (f : MQTTClient -> MQTTClient) :
  (forall w, Inv w -> Inv (mkWorld (f (self w)) (calls w) (log w))) ->
  preserves Inv (modify f).
Proof. intros Hf w H. now apply Hf. Qed.

Lemma pres_call (e : Effect) :
  (forall w, Inv w -> Inv (mkWorld (self w) (calls w ++ [e]) (log w))) ->
  preserves Inv (call transport e).
Proof. intros He w H. now apply He. Qed.

Lemma pres_perform (e : Effect) :
  (forall w, Inv w -> Inv (mkWorld (self w) (calls w ++ [e]) (log w))) ->
  preserves Inv (perform e).
Proof. intros He w H. now apply He. Qed.

End Preservation.

(** One rule of the above, or a case split on the test of a conditional. *)
Ltac pres_rule :=
  lazymatch goal with
  | |- preserves _ (mret _) => apply pres_ret
  | |- preserves _ (raise _) => apply pres_raise
  | |- preserves _ (datetime_now _) => apply pres_now
  | |- preserves _ (get ≫= _) => apply pres_get; intros ? ?
  | |- preserves _ (_ ≫= _) => apply pres_bind; [|intros ?]
  | |- preserves _ (try_except _ _) => apply pres_try; [|intros ?]
  | |- preserves _ (logger _ _) => apply pres_logger
  | |- preserves _ (modify _) => apply pres_modify
  | |- preserves _ (call _ _) => apply pres_call
  | |- preserves _ (perform _) => apply pres_perform
  | |- preserves _ (if ?b then _ else _) => destruct b eqn:?
  | |- preserves _ (match ?x with _ => _ end) => destruct x eqn:?
  end.

Ltac unfold_methods :=
  repeat progress unfold step, ignore, connect, disconnect, publish_sensor_data,
    publish_status, publish_heartbeat, publish_debug, subscribe, _publish,
    _on_connect, _on_disconnect, _on_message, _attempt_reconnect,
    _start_heartbeat, _heartbeat_iteration.

(** *** After the reconnect attempts are used up *)

(** The effects of the reconnect path and of [connect]: a backoff sleep, a
    reconnect call, a connect call. *)
Definition reconnect_effect (e : Effect) : bool :=
  match e with
  | Reconnect | Connect _ _ _ | Sleep _ => true
  | _ => false
  end.

(** The events that can bring a client up: a manual [connect()], and a
    successful connection acknowledgement, which the transport delivers
    only in answer to a connect or reconnect request. *)
Definition brings_up (e : Event) : bool :=
  match e with
  | CallConnect => true
  | OnConnect rc => Z.eqb rc 0
  | _ => false
  end.

(** The client is disconnected with its attempts used up, and since the
    calls [before] it has made no call of the reconnect path. *)
Definition down_for_good (before : list Effect) (n : Z) (w : World) : Prop :=
  connected (self w) = false /\
  reconnect_attempts (self w) = n /\
  max_reconnect_attempts (self w) <= n /\
  exists new, calls w = (before ++ new)%list /\
              Forall (fun e => reconnect_effect e = false) new.

(** The stop flag is set, the attempt counter is [n], and since [before] no
    call of the reconnect path was made. *)
Definition stopped_quiet (before : list Effect) (n : Z) (w : World) : Prop :=
  _stop_event (self w) = true /\
  reconnect_attempts (self w) = n /\
  exists new, calls w = (before ++ new)%list /\
              Forall (fun e => reconnect_effect e = false) new.

Definition stopped (w : World) : Prop := _stop_event (self w) = true.

(** A client built without the MQTT library: no transport object, never
    connected, no call made. *)
Definition no_library (w : World) : Prop :=
  client (self w) = false /\ connected (self w) = false /\
  _heartbeat_thread (self w) = None /\ calls w = [].

(** The callbacks the transport fires; without a transport object none is
    registered ([_setup_client] returns at once). *)
Definition transport_callback (e : Event) : bool :=
  match e with
  | OnConnect _ | OnDisconnect _ | OnMessage _ _ => true
  | _ => false
  end.

Section Client.

Variable transport : list Effect -> Effect -> Result Z.
Variable clock : list Effect -> Z.
Variable MQTT_TOPICS : string -> string -> string.

Local Abbreviation step := (step transport clock MQTT_TOPICS).
Local Abbreviation run := (run transport clock MQTT_TOPICS).

Lemma preserves_heartbeat_tick (Inv : World -> Prop) :
  preserves Inv (_heartbeat_iteration transport clock MQTT_TOPICS) ->
  (forall w, Inv w ->
     Inv (mkWorld (set_heartbeat_thread (Some false) (self w))
                  (calls w) (log w))) ->
  preserves Inv (heartbeat_tick transport clock MQTT_TOPICS).
Proof.
  intros Hit Hmod w H. unfold heartbeat_tick.
  destruct (_heartbeat_thread (self w)) as [[|]|]; try exact H.
  revert w H. apply pres_bind; [exact Hit|]. intros [|]; [apply pres_ret|].
  now apply pres_modify.
Qed.

Lemma preserves_run (Inv : World -> Prop) (allowed : Event -> Prop)
    (events : list Event) :
  (forall e, allowed e -> preserves Inv (step e)) ->
  Forall allowed events ->
  forall w, Inv w -> Inv (run events w).
Proof.
  intros Hstep Hall. induction Hall as [|e rest He _ IH]; intros w Hw.
  - exact Hw.
  - simpl. apply IH. now apply Hstep.
Qed.

Lemma down_for_good_call before n e w :
  reconnect_effect e = false -> down_for_good before n w ->
  down_for_good before n (mkWorld (self w) (calls w ++ [e]) (log w)).
Proof.
  intros He (Hc & Hn & Hmax & new & Hcalls & Hnew). repeat split; auto.
  exists (new ++ [e])%list. simpl. rewrite Hcalls, <- app_assoc. split; auto.
  apply Forall_app. split; auto.
Qed.

Lemma step_down_for_good before n e :
  brings_up e = false ->
  preserves (down_for_good before n) (step e).
Proof.
  intros Hup.
  destruct e; try discriminate; unfold_methods;
    try apply preserves_heartbeat_tick; unfold_methods; repeat pres_rule;
    try (intros w Hw; apply down_for_good_call; [reflexivity|exact Hw]);
    try (intros w l Hw; exact Hw);
    try (intros w (Hc & Hn & Hmax & Hnew); repeat split; assumption);
    exfalso; simpl in Hup; try congruence;
    match goal with
    | H : exists w, down_for_good _ _ w /\ self w = ?c,
      E : Z.leb (max_reconnect_attempts ?c) _ = false |- _ =>
        destruct H as (w & (Hc & Hn & Hmax & _) & <-);
        apply Z.leb_gt in E; lia
    end.
Qed.

Lemma run_app (events events' : list Event) (w : World) :
  run (events ++ events') w = run events' (run events w).
Proof.
  revert w. induction events as [|e rest IH]; intros w; simpl; auto.
Qed.

Lemma bind_get {B} (f : MQTTClient -> M B) (w : World) :
  (get ≫= f) w = f (self w) w.
Proof. reflexivity. Qed.

Lemma bind_modify {B} (g : MQTTClient -> MQTTClient) (f : unit -> M B)
    (w : World) :
  (modify g ≫= f) w = f tt (mkWorld (g (self w)) (calls w) (log w)).
Proof. reflexivity. Qed.


(** C2: the reconnect attempt numbered [n], for [n] from 1 to
    [max_reconnect_attempts], sleeps [min(30, 2^n)] seconds and then makes
    the reconnect call (on the transport object, when there is one). *)
Theorem backoff_delay (w : World) (n : Z) :
  1 <= n <= max_reconnect_attempts (self w) ->
  reconnect_attempts (self w) = n - 1 ->
  let w' := snd (_attempt_reconnect transport w) in
  reconnect_attempts (self w') = n /\
  calls w' =
    (calls w ++ Sleep (Z.min 30 (2 ^ n))
             :: (if client (self w) then [Reconnect] else []))%list.
Proof.
  intros Hn Hat. unfold _attempt_reconnect. rewrite bind_get.
  destruct (Z.leb_spec (max_reconnect_attempts (self w))
                       (reconnect_attempts (self w))) as [Hle|_]; [lia|].
  replace (reconnect_attempts (self w) + 1) with n by lia.
  rewrite bind_modify.
  unfold mbind, M_bind, logger, perform, try_except, call, raise, mret, M_ret.
  simpl. destruct (client (self w)); simpl.
  - destruct (transport _ Reconnect); simpl;
      (split; [reflexivity|now rewrite <- app_assoc]).
  - split; reflexivity.
Qed.

Lemma step_stopped (e : Event) : preserves stopped (step e).
Proof.
  destruct e; unfold_methods;
    try apply preserves_heartbeat_tick; unfold_methods; repeat pres_rule;
    try (intros w Hw; exact Hw); try (intros w Hw; reflexivity);
    intros w l Hw; exact Hw.
Qed.

Lemma disconnect_sets_stop (w : World) :
  client (self w) = true ->
  stopped (snd (disconnect transport clock MQTT_TOPICS w)).
Proof.
  intros Hcl. unfold disconnect. rewrite bind_get, Hcl. cbn [negb].
  rewrite bind_modify.
  cbv beta.
  match goal with
  | |- stopped (snd (?m ?w1)) =>
      cut (preserves stopped m); [intros Hp; apply Hp; reflexivity|]
  end.
  unfold_methods; repeat pres_rule;
    try (intros w' Hw; exact Hw); intros w' l Hw; exact Hw.
Qed.

Lemma stopped_quiet_call before n e w :
  reconnect_effect e = false -> stopped_quiet before n w ->
  stopped_quiet before n (mkWorld (self w) (calls w ++ [e]) (log w)).
Proof.
  intros He (Hs & Hn & new & Hcalls & Hnew). repeat split; auto.
  exists (new ++ [e])%list. simpl. rewrite Hcalls, <- app_assoc. split; auto.
  apply Forall_app. split; auto.
Qed.

Lemma on_disconnect_stopped_quiet before n rc :
  preserves (stopped_quiet before n)
            (_on_disconnect transport rc).
Proof.
  unfold_methods; repeat pres_rule;
    try (intros w Hw; apply stopped_quiet_call; [reflexivity|exact Hw]);
    try (intros w l Hw; exact Hw);
    try (intros w (Hs & Hn & Hnew); repeat split; assumption);
    exfalso;
    match goal with
    | H : exists w, stopped_quiet _ _ w /\ self w = ?c,
      E : _ && negb (_stop_event ?c) = true |- _ =>
        destruct H as (w & (Hs & _) & <-); rewrite Hs in E;
        apply andb_true_iff in E as [_ E]; discriminate
    end.
Qed.

(** C3: after a deliberate [disconnect()] on a client that has a transport
    (so the stop flag is set), and after whatever happens next, a disconnect
    callback with any code, clean or not, leaves the attempt counter as it
    was and makes no backoff sleep and no reconnect call. *)
Theorem deliberate_disconnect_suppresses_reconnect (w : World)
    (events : list Event) (rc : Z) :
  client (self w) = true ->
  let w1 := run events (snd (disconnect transport clock MQTT_TOPICS w)) in
  let w2 := snd (_on_disconnect transport rc w1) in
  _stop_event (self w1) = true /\
  reconnect_attempts (self w2) = reconnect_attempts (self w1) /\
  exists new, calls w2 = (calls w1 ++ new)%list /\
              Forall (fun e => reconnect_effect e = false) new.
Proof.
  intros Hcl w1 w2.
  assert (stopped w1) as Hstop.
  { apply (preserves_run stopped (fun _ => True) events).
    - intros e _. apply step_stopped.
    - apply Forall_forall. auto.
    - now apply disconnect_sets_stop. }
  split; [exact Hstop|].
  assert (stopped_quiet (calls w1) (reconnect_attempts (self w1)) w1) as Hq.
  { repeat split; auto. exists []. now rewrite app_nil_r. }
  apply (on_disconnect_stopped_quiet _ _ rc) in Hq.
  destruct Hq as (_ & Hn & Hnew). auto.
Qed.

(** C4: [publish_sensor_data] on a client that is not connected returns
    [False], makes no call on the transport and leaves the client as it
    was. *)
Theorem publish_sensor_data_while_disconnected (w : World)
    (sensor_id : string) (data : JValue) :
  connected (self w) = false ->
  let out := publish_sensor_data transport clock MQTT_TOPICS sensor_id data w in
  fst out = Ok false /\ calls (snd out) = calls w /\ self (snd out) = self w.
Proof.
  intros Hc. unfold publish_sensor_data. rewrite bind_get, Hc.
  repeat split.
Qed.

(** *** A client without the MQTT library *)

Lemma publish_without_client (w : World) (topic : string) (payload : JValue)
    (qos : Z) (retain : bool) :
  client (self w) = false ->
  _publish transport topic payload qos retain w = (Ok false, w).
Proof.
  intros Hcl. unfold _publish. rewrite bind_get, Hcl. reflexivity.
Qed.

Lemma step_no_library (e : Event) :
  transport_callback e = false -> preserves no_library (step e).
Proof.
  intros Hcb.
  destruct e; try discriminate;
    [| | | | | | | intros w (Hcl & Hc & Hth & Hcalls);
                 unfold step, heartbeat_tick; rewrite Hth;
                 repeat split; assumption ];
    unfold_methods; repeat pres_rule;
    try (intros w l Hw; exact Hw);
    try (intros w (Hcl & Hc & Hth & Hcalls); repeat split; assumption);
    exfalso;
    repeat match goal with
    | H : exists w, no_library w /\ self w = _ |- _ =>
        destruct H as (? & (? & ? & _) & <-)
    end;
    match goal with
    | Hcl : client ?c = false, E : negb (client ?c) = false |- _ =>
        rewrite Hcl in E; discriminate
    | Hcl : client ?c = false, E : negb (client ?c) || _ = false |- _ =>
        rewrite Hcl in E; discriminate
    | Hc : connected ?c = false, E : negb (connected ?c) = false |- _ =>
        rewrite Hc in E; discriminate
    | Hc : connected ?c = false, E : connected ?c = true |- _ =>
        congruence
    end.
Qed.

(** C10: a client built while the MQTT library is missing has no transport
    object. Whatever the application then calls on it, [connect()] returns
    [False] and leaves [connected] false, and each publish helper returns
    [False]; no call is ever made. *)
Theorem client_without_library_never_connects (uuid_hex : string)
    (config : MQTTConfig) (client_id : option string)
    (events : list Event) :
  Forall (fun e => transport_callback e = false) events ->
  let w := run events
             (mkWorld (__init__ false uuid_hex config client_id) [] []) in
  connected (self w) = false /\ calls w = [] /\
  fst (connect transport w) = Ok false /\
  connected (self (snd (connect transport w))) = false /\
  (forall status reason,
     fst (publish_status transport clock MQTT_TOPICS status reason w)
     = Ok false) /\
  fst (publish_heartbeat transport clock MQTT_TOPICS w) = Ok false /\
  (forall message data,
     fst (publish_debug transport clock MQTT_TOPICS message data w)
     = Ok false) /\
  (forall sensor_id data,
     fst (publish_sensor_data transport clock MQTT_TOPICS sensor_id data w)
     = Ok false).
Proof.
  intros Hev w.
  assert (no_library w) as (Hcl & Hc & _ & Hcalls).
  { apply (preserves_run no_library _ events step_no_library Hev).
    repeat split. }
  repeat split; auto.
  - unfold connect. rewrite bind_get, Hcl. reflexivity.
  - unfold connect. rewrite bind_get, Hcl. exact Hc.
  - intros status reason. unfold publish_status, datetime_now.
    rewrite bind_get. unfold mbind at 1, M_bind at 1.
    now rewrite publish_without_client.
  - unfold publish_heartbeat, datetime_now.
    rewrite bind_get. unfold mbind at 1, M_bind at 1.
    now rewrite publish_without_client.
  - intros message data. unfold publish_debug, datetime_now.
    rewrite bind_get. unfold mbind at 1, M_bind at 1.
    now rewrite publish_without_client.
  - intros sensor_id data. unfold publish_sensor_data. rewrite bind_get, Hc.
    reflexivity.
Qed.

End Client.

(** ** The agent's poll cycle *)

(** The [publish_sensor_data] call an action stands for, if any. *)
Definition published (x : Agent.Action) : option (string * JValue) :=
  match x with
  | Agent.PublishSensorData sensor_id data _ => Some (sensor_id, data)
  | Agent.Wait _ => None
  end.

(** What a cycle owes the broker client: the valid readings, in order. *)
Definition valid_readings (readings : dict SensorReading)
    : list (string * JValue) :=
  map (fun item => (fst item, to_dict (snd item)))
      (List.filter (fun item => is_valid (snd item)) readings).

Definition connected_broker (a : Agent.IoTSensorClient) : Prop :=
  exists b, Agent.mqtt_client a = Some b /\ Agent.is_connected b = true.

Section AgentLoop.

Variable HAS_DHT : bool.
Variable HAS_DS18B20 : bool.
Variable round : float -> Z -> float.
Variable transport : list Effect -> Effect -> Result Z.
Variable clock : list Effect -> Z.
Variable mock_clock : list (string * JValue) -> Z.
Variable MQTT_TOPICS : string -> string -> string.

Local Abbreviation read_all := (read_all HAS_DHT HAS_DS18B20 round).
Local Abbreviation publish_readings :=
  (Agent.publish_readings transport clock mock_clock MQTT_TOPICS).
Local Abbreviation poll_cycle :=
  (Agent.poll_cycle HAS_DHT HAS_DS18B20 round transport clock mock_clock
                    MQTT_TOPICS).

(** The sentence about the poll cycle as the specification words it: every
    valid reading of the cycle is handed to [publish_sensor_data]. *)
Definition cycle_publishes_every_valid_reading (env : string -> ReadEnv)
    (a : Agent.IoTSensorClient) : Prop :=
  forall sensors, Agent.sensor_manager a = Some sensors ->
  forall sensor_id reading,
    In (sensor_id, reading) (fst (read_all env sensors)) ->
    is_valid reading = true ->
    exists new,
      Agent.actions (poll_cycle env a) = (Agent.actions a ++ new)%list /\
      In (Some (sensor_id, to_dict reading)) (map published new).

(** The real client's [publish_sensor_data] returns, and leaves the fields
    of the client alone. *)
Lemma publish_sensor_data_returns (sensor_id : string) (data : JValue)
    (w : World) :
  exists b,
    fst (publish_sensor_data transport clock MQTT_TOPICS sensor_id data w)
    = Ok b.
Proof.
  unfold publish_sensor_data, _publish, datetime_now.
  rewrite bind_get. destruct (connected (self w)) eqn:Hc; simpl; [|eauto].
  unfold mbind at 1, M_bind at 1. rewrite bind_get, Hc.
  destruct (client (self w)); simpl; [|eauto].
  unfold try_except, mbind, M_bind, call, logger, mret, M_ret. simpl.
  destruct (transport _ _) as [rc|msg]; simpl; [|eauto].
  destruct (Z.eqb rc MQTT_ERR_SUCCESS); simpl; eauto.
Qed.

Lemma publish_sensor_data_self (sensor_id : string) (data : JValue)
    (w : World) :
  self (snd (publish_sensor_data transport clock MQTT_TOPICS sensor_id data w))
  = self w.
Proof.
  assert (preserves (fun w' => self w' = self w)
            (publish_sensor_data transport clock MQTT_TOPICS sensor_id data))
    as Hp.
  { unfold_methods; repeat pres_rule; try (intros w' Hw; exact Hw);
      intros w' l Hw; exact Hw. }
  now apply Hp.
Qed.

Lemma broker_publish_connected (sensor_id : string) (data : JValue)
    (b : Agent.Broker) :
  Agent.is_connected b = true ->
  exists success b',
    Agent.publish_sensor_data transport clock mock_clock MQTT_TOPICS
                              sensor_id data b = (Ok success, b') /\
    Agent.is_connected b' = true.
Proof.
  destruct b as [w|m]; simpl; intros Hc.
  - destruct (publish_sensor_data_returns sensor_id data w) as [ok Hok].
    pose proof (publish_sensor_data_self sensor_id data w) as Hself.
    destruct (publish_sensor_data _ _ _ _ _ w) as [r w']. simpl in *.
    subst r. exists ok, (Agent.Real w'). split; [reflexivity|].
    simpl. unfold is_connected. now rewrite Hself.
  - unfold Mock.publish_sensor_data, Mock.is_connected in *. rewrite Hc.
    simpl. eauto.
Qed.

Lemma valid_readings_cons (id : string) (r : SensorReading)
    (rest : dict SensorReading) :
  valid_readings ((id, r) :: rest) =
  if is_valid r then (id, to_dict r) :: valid_readings rest
  else valid_readings rest.
Proof.
  unfold valid_readings. simpl. now destruct (is_valid r).
Qed.

Lemma publish_readings_connected (readings : dict SensorReading)
    (a : Agent.IoTSensorClient) :
  connected_broker a ->
  let out := publish_readings readings a in
  fst out = Ok tt /\ connected_broker (snd out) /\
  Agent.update_interval (snd out) = Agent.update_interval a /\
  exists new,
    Agent.actions (snd out) = (Agent.actions a ++ new)%list /\
    map published new = map Some (valid_readings readings).
Proof.
  revert a. induction readings as [|[id r] rest IH]; intros a Hb.
  - simpl. repeat split; auto. exists []. now rewrite app_nil_r.
  - rewrite valid_readings_cons. cbn [Agent.publish_readings].
    destruct (is_valid r) eqn:Hv.
    + destruct Hb as (b & Hmc & Hc). unfold Agent._publish_sensor_reading.
      rewrite Hmc, Hc. simpl.
      destruct (broker_publish_connected id (to_dict r) b Hc)
        as (ok & b' & Hpub & Hc').
      rewrite Hpub.
      match goal with
      | |- context [publish_readings rest ?a1] =>
          specialize (IH a1); set (a' := a1) in *
      end.
      destruct IH as (Hok & Hb' & Hint & new & Hact & Hnew).
      { exists b'. destruct ok; auto. }
      repeat split; auto.
      * rewrite Hint. unfold a'. destruct ok; reflexivity.
      * exists (Agent.PublishSensorData id (to_dict r) ok :: new).
        rewrite Hact. split.
        -- unfold a'. destruct ok; simpl; now rewrite <- app_assoc.
        -- simpl. now rewrite Hnew.
    + apply (IH (Agent.logger WARNING "Invalid reading from sensor" a)).
      exact Hb.
Qed.

(** C7, as the code has it: in a poll cycle run while the broker client
    reports connected, the calls of [publish_sensor_data] are exactly the
    readings with [is_valid()] true, in order, each with its [to_dict()];
    the cycle then waits for the update interval. [validate_reading] takes
    no part: a reading it rejects is published like any other. *)
Theorem poll_cycle_publishes_valid_readings (env : string -> ReadEnv)
    (a : Agent.IoTSensorClient) (sensors : dict SensorReader) :
  Agent.sensor_manager a = Some sensors ->
  connected_broker a ->
  let readings := fst (read_all env sensors) in
  (exists new,
     Agent.actions (poll_cycle env a)
     = (Agent.actions a ++ new
        ++ [Agent.Wait (default 30 (Agent.update_interval a))])%list /\
     map published new = map Some (valid_readings readings)) /\
  forall sensor_id reading,
    In (sensor_id, reading) readings -> is_valid reading = true ->
    forall SensorType SENSOR_RANGES reader verdict,
      validate_reading SensorType SENSOR_RANGES reader reading = verdict ->
      In (sensor_id, to_dict reading) (valid_readings readings).
Proof.
  intros Hsm Hb readings. split.
  - unfold Agent.poll_cycle. rewrite Hsm. fold readings.
    destruct (read_all env sensors) as [rs sensors'] eqn:Hread.
    simpl in readings. subst readings.
    destruct (publish_readings_connected rs
                (Agent.set_sensor_manager (Some sensors') a))
      as (Hok & _ & Hint & new & Hact & Hnew); [exact Hb|].
    destruct (publish_readings rs _) as [res a'] eqn:Hpub. simpl in *.
    subst res. exists new. simpl. rewrite Hact, Hint.
    split; [now rewrite <- app_assoc|exact Hnew].
  - intros id r Hin Hv _ _ _ _ _. unfold valid_readings.
    change (id, to_dict r)
      with ((fun item : string * SensorReading =>
               (fst item, to_dict (snd item))) (id, r)).
    apply in_map. apply filter_In. split; [exact Hin|exact Hv].
Qed.

End AgentLoop.

(** * Concrete runs *)

Definition sample_transport : list Effect -> Effect -> Result Z :=
  fun _ _ => Ok 0.
Definition sample_clock : list Effect -> Z := fun cs => Z.of_nat (length cs).
Definition sample_mock_clock : list (string * JValue) -> Z :=
  fun ms => Z.of_nat (length ms).
Definition sample_topics (key client_id : string) : string :=
  "sensors/" ++ client_id ++ "/" ++ key.
Definition sample_round (x : float) (ndigits : Z) : float := x.

Definition sample_config : MQTTConfig :=
  mkConfig (Some "broker.local") (Some 1883) None (Some 2) None None.

(** A client built with the library present, before its first [connect()]. *)
Definition sample_world : World :=
  mkWorld (__init__ true "0a1b2c3d" sample_config (Some "sensor_001")) [] [].

(** The same client after it connected and then lost the connection twice:
    both of its two reconnect attempts are used up. *)
Definition exhausted_world : World :=
  run sample_transport sample_clock sample_topics
      [CallConnect; OnConnect 0; OnDisconnect 1; OnDisconnect 1] sample_world.

Example exhausted_world_backoff :
  List.filter reconnect_effect (calls exhausted_world)
  = [Connect "broker.local" 1883 60; Sleep 2; Reconnect; Sleep 4; Reconnect].
Proof. vm_compute. reflexivity. Qed.


(** The sentence about exhausted reconnects as the specification words it:
    from this state on, until a manual [connect()], [get_status()] reports
    [connected] false and no call of the reconnect path is made. *)
Definition stays_down_until_manual_connect
    (transport : list Effect -> Effect -> Result Z)
    (clock : list Effect -> Z) (MQTT_TOPICS : string -> string -> string)
    (w : World) : Prop :=
  forall events, Forall (fun e => e <> CallConnect) events ->
    let w' := run transport clock MQTT_TOPICS events w in
    dict_get "connected" (get_status (self w')) = Some (JBool false) /\
    exists new, calls w' = (calls w ++ new)%list /\
                Forall (fun e => reconnect_effect e = false) new.

(** The counter reaches the maximum before the last reconnect call is made,
    so that call is still pending in the exhausted state. When the broker
    acknowledges it, the client is connected again and its counter is back
    at 0, and the next loss of the connection starts a new backoff, all
    without a manual [connect()]. *)
Example acknowledged_last_attempt_resumes :
  let w := run sample_transport sample_clock sample_topics
               [OnConnect 0; OnDisconnect 1] exhausted_world in
  last (calls exhausted_world) = Some Reconnect /\
  reconnect_attempts (self w) = 1 /\
  List.filter reconnect_effect
              (drop (length (calls exhausted_world)) (calls w))
  = [Sleep 2; Reconnect].
Proof. vm_compute. repeat split. Qed.


Lemma backoff_delay_witness :
  1 <= 1 <= max_reconnect_attempts (self sample_world) /\
  reconnect_attempts (self sample_world) = 1 - 1 /\
  calls (snd (_attempt_reconnect sample_transport sample_world))
  = [Sleep 2; Reconnect].
Proof.
  split; [vm_compute; split; discriminate|]. split; [reflexivity|].
  apply (backoff_delay sample_transport sample_world 1).
  - vm_compute. split; discriminate.
  - reflexivity.
Defined.

Lemma deliberate_disconnect_suppresses_reconnect_witness :
  client (self sample_world) = true /\
  let w1 := run sample_transport sample_clock sample_topics
                [OnDisconnect 0; CallPublishHeartbeat]
                (snd (disconnect sample_transport sample_clock sample_topics
                                 sample_world)) in
  let w2 := snd (_on_disconnect sample_transport 7 w1) in
  _stop_event (self w1) = true /\
  reconnect_attempts (self w2) = reconnect_attempts (self w1) /\
  exists new, calls w2 = (calls w1 ++ new)%list /\
              Forall (fun e => reconnect_effect e = false) new.
Proof.
  split; [reflexivity|].
  apply (deliberate_disconnect_suppresses_reconnect sample_transport
           sample_clock sample_topics sample_world).
  reflexivity.
Defined.

Lemma publish_sensor_data_while_disconnected_witness :
  connected (self sample_world) = false /\
  fst (publish_sensor_data sample_transport sample_clock sample_topics
         "sensor_001" (JDict []) sample_world) = Ok false.
Proof.
  split; [reflexivity|].
  apply (publish_sensor_data_while_disconnected sample_transport sample_clock
           sample_topics sample_world "sensor_001" (JDict [])).
  reflexivity.
Defined.

Lemma client_without_library_never_connects_witness :
  Forall (fun e => transport_callback e = false)
         [CallConnect; CallPublishHeartbeat; HeartbeatTick; CallDisconnect] /\
  let w := run sample_transport sample_clock sample_topics
             [CallConnect; CallPublishHeartbeat; HeartbeatTick; CallDisconnect]
             (mkWorld (__init__ false "0a1b2c3d" sample_config None) [] []) in
  connected (self w) = false /\ calls w = [] /\
  fst (connect sample_transport w) = Ok false.
Proof.
  assert (Forall (fun e => transport_callback e = false)
            [CallConnect; CallPublishHeartbeat; HeartbeatTick; CallDisconnect])
    as Hev by repeat constructor.
  split; [exact Hev|].
  pose proof (client_without_library_never_connects sample_transport
                sample_clock sample_topics "0a1b2c3d" sample_config None
                _ Hev) as (Hc & Hcalls & Hconn & _).
  auto.
Defined.

(** Two registered sensors: a DHT11 reader without a driver, whose synthetic
    temperature here comes out at 150, and a reader of the base class, whose
    [read] raises. *)
Definition sample_sensors : dict SensorReader :=
  [("sensor_001", mkReader (DHT11Reader 4 false) "sensor_001" "DHT11" None 0 5);
   ("sensor_002", mkReader BaseReader "sensor_002" "DHT11" None 0 5)].

Definition sample_env (sensor_id : string) : ReadEnv :=
  mkEnv 1700000000 (Ok None) (Ok None) (Raise "no device")
        130%float 5%float 0%float 0.5%float.

Example sample_read_all :
  map (fun item => (fst item, temperature (snd item), error (snd item)))
      (fst (read_all false false sample_round sample_env sample_sensors))
  = [("sensor_001", Some 150%float, None); ("sensor_002", None, Some "")].
Proof. vm_compute. reflexivity. Qed.

Lemma read_all_one_entry_per_sensor_witness :
  NoDup (keys sample_sensors) /\
  keys (fst (read_all false false sample_round sample_env sample_sensors))
  = keys sample_sensors.
Proof.
  assert (NoDup (keys sample_sensors)) as Hnd.
  { apply (bool_decide_unpack (NoDup (keys sample_sensors))).
    vm_compute. exact I. }
  split; [exact Hnd|].
  apply (read_all_one_entry_per_sensor false false sample_round sample_env
           sample_sensors Hnd).
Defined.

Definition sample_agent (broker : Agent.Broker) : Agent.IoTSensorClient :=
  Agent.mkAgent (Some 30) (Some sample_sensors) (Some broker) true false [] [].

Definition connected_mock : Agent.Broker :=
  Agent.Mocked (snd (Mock.connect (Mock.__init__ "0a1b2c3d" sample_config None))).

(** The reading with temperature 150 fails the range check of the sample
    DHT11 table and is published all the same. *)
Example out_of_range_reading_is_published :
  validate_reading sample_SensorType sample_SENSOR_RANGES sample_reader
    (mkReading (Some 150%float) (Some 55%float) None 1700000000
               "sensor_001" "DHT11" None) = false /\
  map published
      (Agent.actions
         (Agent.poll_cycle false false sample_round sample_transport
            sample_clock sample_mock_clock sample_topics sample_env
            (sample_agent connected_mock)))
  = [Some ("sensor_001",
           to_dict (mkReading (Some 150%float) (Some 55%float) None 1700000000
                              "sensor_001" "DHT11" None));
     None].
Proof. vm_compute. split; reflexivity. Qed.

Lemma poll_cycle_publishes_valid_readings_witness :
  Agent.sensor_manager (sample_agent connected_mock) = Some sample_sensors /\
  connected_broker (sample_agent connected_mock) /\
  exists new,
    Agent.actions
      (Agent.poll_cycle false false sample_round sample_transport
         sample_clock sample_mock_clock sample_topics sample_env
         (sample_agent connected_mock))
    = (new ++ [Agent.Wait 30])%list /\
    map published new
    = map Some (valid_readings
                  (fst (read_all false false sample_round sample_env
                                 sample_sensors))).
Proof.
  assert (connected_broker (sample_agent connected_mock)) as Hb.
  { exists connected_mock. split; reflexivity. }
  split; [reflexivity|]. split; [exact Hb|].
  apply (poll_cycle_publishes_valid_readings false false sample_round
           sample_transport sample_clock sample_mock_clock sample_topics
           sample_env (sample_agent connected_mock) sample_sensors eq_refl Hb).
Defined.

(** C7, counterexample to the sentence as worded: while the client has not
    (yet) been acknowledged as connected, a poll cycle reads a valid reading
    and makes no [publish_sensor_data] call; it only waits. *)
Lemma disconnected_cycle_publishes_nothing :
  ~ cycle_publishes_every_valid_reading false false sample_round
      sample_transport sample_clock sample_mock_clock sample_topics
      sample_env (sample_agent (Agent.Real sample_world)).
Proof.
  intros H.
  destruct (H sample_sensors eq_refl "sensor_001" _ (or_introl eq_refl)
              eq_refl) as (new & Hact & Hin).
  vm_compute in Hact. subst new. simpl in Hin.
  destruct Hin as [Hin|[]]. discriminate.
Qed.

(** * More of sensor_reader.py *)

(** ** Dictionary updates and lookups *)

Lemma dict_get_set_eq {V} (k : string) (v : V) (d : dict V) :
  dict_get k (dict_set k v d) = Some v.
Proof.
  induction d as [|[k' v'] d IH]; simpl.
  - now rewrite String.eqb_refl.
  - destruct (String.eqb_spec k k') as [->|Hne]; simpl.
    + now rewrite String.eqb_refl.
    + destruct (String.eqb_spec k k'); [contradiction|exact IH].
Qed.

Lemma dict_get_set_ne {V} (k k' : string) (v : V) (d : dict V) :
  k <> k' -> dict_get k' (dict_set k v d) = dict_get k' d.
Proof.
  intros Hne. induction d as [|[k1 v1] d IH]; simpl.
  - destruct (String.eqb_spec k' k); [congruence|reflexivity].
  - destruct (String.eqb_spec k k1) as [->|Hk]; simpl.
    + destruct (String.eqb_spec k' k1); [congruence|reflexivity].
    + destruct (String.eqb_spec k' k1); [reflexivity|exact IH].
Qed.

Lemma keys_dict_set {V} (k k' : string) (v : V) (d : dict V) :
  In k' (keys (dict_set k v d)) <-> k' = k \/ In k' (keys d).
Proof.
  induction d as [|[k1 v1] d IH]; simpl.
  - split; [intros [<-|[]]; auto|intros [->|[]]; auto].
  - destruct (String.eqb_spec k k1) as [->|Hk]; simpl.
    + split; [intros [<-|H]; auto|intros [->|[<-|H]]; auto].
    + rewrite IH. split; [intros [<-|[->|H]]; auto|intros [->|[<-|H]]; auto].
Qed.

Lemma NoDup_dict_set {V} (k : string) (v : V) (d : dict V) :
  NoDup (keys d) -> NoDup (keys (dict_set k v d)).
Proof.
  induction d as [|[k1 v1] d IH]; simpl; intros Hnd.
  - apply NoDup_cons. split; [apply not_elem_of_nil|constructor].
  - apply NoDup_cons in Hnd as [Hk1 Hnd].
    destruct (String.eqb_spec k k1) as [->|Hk]; simpl.
    + apply NoDup_cons. split; assumption.
    + apply NoDup_cons. split; [|now apply IH].
      rewrite list_elem_of_In, keys_dict_set. intros [Heq|Hin];
        [congruence|]. apply Hk1. now apply list_elem_of_In.
Qed.

Lemma dict_get_keys {V} (k : string) (d : dict V) :
  In k (keys d) <-> exists v, dict_get k d = Some v.
Proof.
  induction d as [|[k1 v1] d IH]; simpl.
  - split; [intros []|intros [v [=]]].
  - destruct (String.eqb_spec k k1) as [->|Hk].
    + split; eauto.
    + rewrite <- IH. split; [intros [Heq|H]; [congruence|exact H]|auto].
Qed.

(** ** Construction of the readers and of the registry *)

(** One entry of the [sensors] list of the manager's configuration, read
    with [.get]: [type] defaults to ["DHT11"], [pin] to 4, [max_errors]
    to 5. *)
Record SensorConfig : Type := mkSensorConfig {
  sc_id : string;
  sc_type : option string;
  sc_pin : option Z;
  sc_max_errors : option Z
}.

Section Setup.

Variable HAS_DHT : bool.
Variable HAS_DS18B20 : bool.

(** Whether the driver constructors succeed: [adafruit_dht.DHT11/DHT22] on
    pin [D<pin>], and [w1thermsensor.W1ThermSensor()]. Their exceptions are
    caught in the reader constructors, which then leave [self.sensor]
    unset. *)
Variable dht_driver_init : Z -> string -> bool.
Variable ds18b20_driver_init : bool.

(** [SensorReader.__init__] (lines 68-76). *)
Definition SensorReader__init__ (k : ReaderKind) (sensor_id sensor_type : string)
    (config : SensorConfig) : SensorReader :=
  mkReader k sensor_id sensor_type None 0 (default 5 (sc_max_errors config)).

(** [DHT11Reader.__init__] (lines 130-147). *)
Definition DHT11Reader__init__ (sensor_id : string) (pin : Z)
    (sensor_type : string) (config : SensorConfig) : SensorReader :=
  SensorReader__init__
    (DHT11Reader pin (if HAS_DHT then dht_driver_init pin sensor_type
                      else false))
    sensor_id sensor_type config.

(** [DS18B20Reader.__init__] (lines 192-204). *)
Definition DS18B20Reader__init__ (sensor_id : string) (config : SensorConfig)
    : SensorReader :=
  SensorReader__init__
    (DS18B20Reader (if HAS_DS18B20 then ds18b20_driver_init else false))
    sensor_id "DS18B20" config.

(** [MockSensorReader.__init__] (lines 238-242). *)
Definition MockSensorReader__init__ (sensor_id sensor_type : string)
    (config : SensorConfig) : SensorReader :=
  SensorReader__init__ (MockSensorReader 22%float 60%float 0%float)
                       sensor_id sensor_type config.

(** [create_sensor_reader] (lines 342-350). *)
Definition create_sensor_reader (sensor_id sensor_type : string)
    (config : SensorConfig) : SensorReader :=
  if String.eqb sensor_type "DHT11" || String.eqb sensor_type "DHT22" then
    DHT11Reader__init__ sensor_id (default 4 (sc_pin config)) sensor_type config
  else if String.eqb sensor_type "DS18B20" then
    DS18B20Reader__init__ sensor_id config
  else
    MockSensorReader__init__ sensor_id sensor_type config.

(** [SensorManager._setup_sensors] (lines 277-298): the loop body takes the
    same three-way branch as [create_sensor_reader], then files the reader
    under its id. The constructors raise nothing, so the [except] branch is
    not taken. *)
Fixpoint _setup_sensors_loop (sensor_configs : list SensorConfig)
    (sensors : dict SensorReader) : dict SensorReader :=
  match sensor_configs with
  | [] => sensors
  | sensor_config :: rest =>
      let sensor_id := sc_id sensor_config in
      let sensor_type := default "DHT11" (sc_type sensor_config) in
      let sensor := create_sensor_reader sensor_id sensor_type sensor_config in
      _setup_sensors_loop rest (dict_set sensor_id sensor sensors)
  end.

Definition _setup_sensors (sensor_configs : list SensorConfig)
    : dict SensorReader :=
  _setup_sensors_loop sensor_configs [].

End Setup.

(** [SensorManager.get_sensor] (lines 321-323). *)
Definition get_sensor (sensors : dict SensorReader) (sensor_id : string)
    : option SensorReader :=
  dict_get sensor_id sensors.

(** The entry [get_sensor_status] builds for one sensor (lines 330-338). *)
Definition sensor_status (sensor : SensorReader) : dict JValue :=
  let last_reading := get_last_reading sensor in
  [("sensor_type", JStr (reader_type sensor));
   ("healthy", JBool (is_healthy sensor));
   ("error_count", JInt (_error_count sensor));
   ("last_reading_time",
    match last_reading with Some r => JTime (timestamp r) | None => JNone end);
   ("last_temperature",
    match last_reading with Some r => opt_float (temperature r)
                       | None => JNone end);
   ("last_humidity",
    match last_reading with Some r => opt_float (humidity r)
                       | None => JNone end)].

(** [SensorManager.get_sensor_status] (lines 325-340). *)
Fixpoint get_sensor_status_loop (items : list (string * SensorReader))
    (status : dict (dict JValue)) : dict (dict JValue) :=
  match items with
  | [] => status
  | (sensor_id, sensor) :: rest =>
      get_sensor_status_loop rest
        (dict_set sensor_id (sensor_status sensor) status)
  end.

Definition get_sensor_status (sensors : dict SensorReader)
    : dict (dict JValue) :=
  get_sensor_status_loop sensors [].

(** Repeated polling of one reader: [read()] called once per element of
    [envs], each on the object the previous call left. *)
Fixpoint read_many (HAS_DHT HAS_DS18B20 : bool) (round : float -> Z -> float)
    (envs : list ReadEnv) (self : SensorReader) : SensorReader :=
  match envs with
  | [] => self
  | env :: rest =>
      read_many HAS_DHT HAS_DS18B20 round rest
                (snd (read HAS_DHT HAS_DS18B20 round self env))
  end.

(** The DHT driver gives no usable pair of values: an exception, or [None]
    for the temperature or the humidity. *)
Definition dht_failure (env : ReadEnv) : bool :=
  match hw_temperature env with
  | Ok (Some _) =>
      match hw_humidity env with Ok (Some _) => false | _ => true end
  | _ => true
  end.

From Stdlib Require Import Floats.SpecFloat Floats.FloatOps Floats.FloatAxioms.

(** ** The registry built by [_setup_sensors] *)

Section SetupFacts.

Variable HAS_DHT : bool.
Variable HAS_DS18B20 : bool.
Variable dht_driver_init : Z -> string -> bool.
Variable ds18b20_driver_init : bool.

Local Abbreviation create_sensor_reader :=
  (create_sensor_reader HAS_DHT HAS_DS18B20 dht_driver_init
                        ds18b20_driver_init).
Local Abbreviation _setup_sensors_loop :=
  (_setup_sensors_loop HAS_DHT HAS_DS18B20 dht_driver_init
                       ds18b20_driver_init).
Local Abbreviation _setup_sensors :=
  (_setup_sensors HAS_DHT HAS_DS18B20 dht_driver_init ds18b20_driver_init).

(** The reader [_setup_sensors] builds for one configuration entry. *)
Definition configured_reader (c : SensorConfig) : SensorReader :=
  create_sensor_reader (sc_id c) (default "DHT11" (sc_type c)) c.

Lemma create_sensor_reader_fresh (sensor_id sensor_type : string)
    (config : SensorConfig) :
  let s := create_sensor_reader sensor_id sensor_type config in
  reader_id s = sensor_id /\ kind s <> BaseReader /\
  _error_count s = 0 /\ get_last_reading s = None /\
  _max_errors s = default 5 (sc_max_errors config).
Proof.
  unfold create_sensor_reader.
  destruct (_ || _); [|destruct (String.eqb _ _)]; simpl;
    repeat split; discriminate.
Qed.

Lemma setup_loop_snoc (configs : list SensorConfig) (c : SensorConfig)
    (acc : dict SensorReader) :
  _setup_sensors_loop (configs ++ [c]) acc
  = dict_set (sc_id c) (configured_reader c) (_setup_sensors_loop configs acc).
Proof.
  revert acc. induction configs as [|c' rest IH]; intros acc; simpl;
    [reflexivity|apply IH].
Qed.

Lemma setup_loop_registry (configs : list SensorConfig)
    (acc : dict SensorReader) :
  NoDup (keys acc) ->
  let out := _setup_sensors_loop configs acc in
  NoDup (keys out) /\
  (forall id, In id (keys out) <-> In id (keys acc) \/ In id (map sc_id configs)) /\
  (forall id s, dict_get id out = Some s ->
     dict_get id acc = Some s \/
     exists c, In c configs /\ sc_id c = id /\ s = configured_reader c).
Proof.
  revert acc. induction configs as [|c rest IH]; intros acc Hnd; simpl.
  - repeat split; auto; tauto.
  - destruct (IH (dict_set (sc_id c) (configured_reader c) acc))
      as (Hnd' & Hkeys & Hget); [now apply NoDup_dict_set|].
    repeat split; [exact Hnd'| | |].
    + intros H. apply Hkeys in H as [H|H]; [|auto].
      apply keys_dict_set in H as [->|H]; auto.
    + intros [H|[<-|H]]; apply Hkeys;
        [left; apply keys_dict_set; auto|left; apply keys_dict_set; auto|auto].
    + intros id s H. apply Hget in H as [H|(c' & Hin & Hid & Hs)].
      * destruct (String.eqb_spec (sc_id c) id) as [Heq|Hne].
        -- subst id. rewrite dict_get_set_eq in H. injection H as <-.
           right. exists c. auto.
        -- rewrite dict_get_set_ne in H by exact Hne. auto.
      * right. exists c'. auto.
Qed.

(** X1: the registry [_setup_sensors] builds holds each configured sensor id
    exactly once and no other id; the reader filed under an id was built
    from a configuration entry with that id, carries that id, is not of the
    raising base class, and starts with no error and no stored reading. *)
Theorem setup_sensors_registry (configs : list SensorConfig) :
  let sensors := _setup_sensors configs in
  NoDup (keys sensors) /\
  (forall id, In id (keys sensors) <-> In id (map sc_id configs)) /\
  forall id s, get_sensor sensors id = Some s ->
    (exists c, In c configs /\ sc_id c = id /\ s = configured_reader c) /\
    reader_id s = id /\ kind s <> BaseReader /\
    _error_count s = 0 /\ get_last_reading s = None.
Proof.
  destruct (setup_loop_registry configs []) as (Hnd & Hkeys & Hget);
    [constructor|].
  repeat split; try exact Hnd.
  - intros H. apply Hkeys in H as [[]|H]. exact H.
  - intros H. apply Hkeys. now right.
  - apply Hget in H as [[=]|H]. exact H.
  - apply Hget in H as [[=]|(c & _ & <- & ->)].
    apply create_sensor_reader_fresh.
  - apply Hget in H as [[=]|(c & _ & <- & ->)].
    apply create_sensor_reader_fresh.
  - apply Hget in H as [[=]|(c & _ & <- & ->)].
    apply create_sensor_reader_fresh.
  - apply Hget in H as [[=]|(c & _ & <- & ->)].
    apply create_sensor_reader_fresh.
Qed.

(** X2: when two configuration entries share an id the later one wins: the
    reader filed under the id of the last entry is the one built from it. *)
Theorem setup_sensors_last_wins (configs : list SensorConfig)
    (c : SensorConfig) :
  get_sensor (_setup_sensors (configs ++ [c])) (sc_id c)
  = Some (configured_reader c).
Proof.
  unfold get_sensor, _setup_sensors. rewrite setup_loop_snoc.
  apply dict_get_set_eq.
Qed.

End SetupFacts.

(** ** What [read] returns and how it moves the counters *)

Section ReadFacts.

Variable HAS_DHT : bool.
Variable HAS_DS18B20 : bool.
Variable round : float -> Z -> float.

Local Abbreviation read := (read HAS_DHT HAS_DS18B20 round).
Local Abbreviation read_many := (read_many HAS_DHT HAS_DS18B20 round).
Local Abbreviation read_all := (read_all HAS_DHT HAS_DS18B20 round).
Local Abbreviation read_all_loop := (read_all_loop HAS_DHT HAS_DS18B20 round).
Local Abbreviation read_one := (read_one HAS_DHT HAS_DS18B20 round).

(** X3: a reading that [read] returns carries the reader's id and type and
    the time of the call, and is valid exactly when it has no error (it is
    never empty without an error); only the base class raises. *)
Theorem read_tags_the_reading (self : SensorReader) (env : ReadEnv) :
  match fst (read self env) with
  | Ok r =>
      sensor_id r = reader_id self /\ sensor_type r = reader_type self /\
      timestamp r = now env /\
      (is_valid r = true <-> error r = None)
  | Raise _ => kind self = BaseReader
  end.
Proof.
  unfold read. destruct (kind self) as [|pin s|s|bt bh d]; simpl.
  - reflexivity.
  - unfold DHT11Reader_read. destruct (s && HAS_DHT).
    + destruct (hw_temperature env) as [[t|]|]; simpl;
        try (repeat split; discriminate);
        destruct (hw_humidity env) as [[h|]|]; simpl;
        repeat split; discriminate.
    + simpl. repeat split.
  - unfold DS18B20Reader_read. destruct (s && HAS_DS18B20).
    + destruct (hw_get_temperature env); simpl; repeat split; discriminate.
    + simpl. repeat split.
  - unfold MockSensorReader_read.
    destruct (PrimFloat.ltb _ _); simpl; repeat split; discriminate.
Qed.

Lemma read_keeps_identity (self : SensorReader) (env : ReadEnv) :
  reader_id (snd (read self env)) = reader_id self /\
  reader_type (snd (read self env)) = reader_type self /\
  _max_errors (snd (read self env)) = _max_errors self.
Proof.
  unfold read. destruct (kind self) as [|pin s|s|bt bh d]; simpl.
  - auto.
  - unfold DHT11Reader_read. destruct (s && HAS_DHT); [|auto].
    destruct (hw_temperature env) as [[t|]|]; simpl; auto;
      destruct (hw_humidity env) as [[h|]|]; simpl; auto.
  - unfold DS18B20Reader_read. destruct (s && HAS_DS18B20); [|auto].
    destruct (hw_get_temperature env); simpl; auto.
  - unfold MockSensorReader_read. destruct (PrimFloat.ltb _ _); simpl; auto.
Qed.

Lemma read_error_count_nonneg (self : SensorReader) (env : ReadEnv) :
  0 <= _error_count self -> 0 <= _error_count (snd (read self env)).
Proof.
  intros H. unfold read. destruct (kind self) as [|pin s|s|bt bh d]; simpl.
  - exact H.
  - unfold DHT11Reader_read. destruct (s && HAS_DHT); [|exact H].
    destruct (hw_temperature env) as [[t|]|]; simpl; try lia;
      destruct (hw_humidity env) as [[h|]|]; simpl; lia.
  - unfold DS18B20Reader_read. destruct (s && HAS_DS18B20); [|exact H].
    destruct (hw_get_temperature env); simpl; lia.
  - unfold MockSensorReader_read. destruct (PrimFloat.ltb _ _); simpl; lia.
Qed.

(** X4: the error counter of a reader never becomes negative, however many
    reads follow one another and whatever they yield. *)
Theorem error_count_never_negative (envs : list ReadEnv)
    (self : SensorReader) :
  0 <= _error_count self -> 0 <= _error_count (read_many envs self).
Proof.
  revert self. induction envs as [|env rest IH]; intros self H; simpl.
  - exact H.
  - apply IH. now apply read_error_count_nonneg.
Qed.

Lemma dht_failed_read (self : SensorReader) (env : ReadEnv) (pin : Z) :
  kind self = DHT11Reader pin true -> HAS_DHT = true ->
  dht_failure env = true ->
  kind (snd (read self env)) = DHT11Reader pin true /\
  _error_count (snd (read self env)) = _error_count self + 1 /\
  _max_errors (snd (read self env)) = _max_errors self /\
  get_last_reading (snd (read self env)) = get_last_reading self.
Proof.
  intros Hk Hdht Hfail. unfold read, dht_failure in *. rewrite Hk.
  unfold DHT11Reader_read. rewrite Hdht. simpl.
  destruct (hw_temperature env) as [[t|]|]; simpl; auto;
    destruct (hw_humidity env) as [[h|]|]; simpl; auto; discriminate.
Qed.

Lemma dht_failed_reads (envs : list ReadEnv) (self : SensorReader) (pin : Z) :
  kind self = DHT11Reader pin true -> HAS_DHT = true ->
  Forall (fun env => dht_failure env = true) envs ->
  kind (read_many envs self) = DHT11Reader pin true /\
  _error_count (read_many envs self)
  = _error_count self + Z.of_nat (length envs) /\
  _max_errors (read_many envs self) = _max_errors self /\
  get_last_reading (read_many envs self) = get_last_reading self.
Proof.
  intros Hk Hdht Hall. revert self Hk.
  induction Hall as [|env rest Hfail _ IH]; intros self Hk.
  - simpl. repeat split; auto. lia.
  - destruct (dht_failed_read self env pin Hk Hdht Hfail)
      as (Hk' & Hc' & Hm' & Hl').
    destruct (IH _ Hk') as (Hk2 & Hc2 & Hm2 & Hl2).
    change (read_many (env :: rest) self)
      with (read_many rest (snd (read self env))).
    cbn [length].
    repeat split; [exact Hk2| | |]; [rewrite Hc2, Hc'; lia|congruence|congruence].
Qed.

(** X5: a DHT reader that uses its driver counts its failed reads one by
    one: after [n] reads in a row that give no usable values it is healthy
    exactly when [error_count + n < max_errors], and its stored reading is
    untouched; the first read that succeeds after them puts the counter
    back to 0 and stores the new reading. *)
Theorem dht_reader_health (envs : list ReadEnv) (good : ReadEnv)
    (self : SensorReader) (pin : Z) :
  kind self = DHT11Reader pin true -> HAS_DHT = true ->
  Forall (fun env => dht_failure env = true) envs ->
  dht_failure good = false ->
  let failed := read_many envs self in
  is_healthy failed
  = Z.ltb (_error_count self + Z.of_nat (length envs)) (_max_errors self) /\
  get_last_reading failed = get_last_reading self /\
  _error_count (snd (read failed good)) = 0 /\
  exists r, fst (read failed good) = Ok r /\ error r = None /\
            get_last_reading (snd (read failed good)) = Some r.
Proof.
  intros Hk Hdht Hall Hgood failed.
  destruct (dht_failed_reads envs self pin Hk Hdht Hall)
    as (Hk' & Hc' & Hm' & Hl').
  fold failed in Hk', Hc', Hm', Hl'.
  unfold is_healthy. rewrite Hc', Hm'. repeat split; [exact Hl'| |].
  - unfold read. rewrite Hk'. unfold DHT11Reader_read, dht_failure in *.
    rewrite Hdht. simpl.
    destruct (hw_temperature good) as [[t|]|]; try discriminate.
    destruct (hw_humidity good) as [[h|]|]; try discriminate. reflexivity.
  - unfold read. rewrite Hk'. unfold DHT11Reader_read, dht_failure in *.
    rewrite Hdht. simpl.
    destruct (hw_temperature good) as [[t|]|]; try discriminate.
    destruct (hw_humidity good) as [[h|]|]; try discriminate.
    simpl. eexists. repeat split.
Qed.

(** X6: whatever the random draws are (a NaN included), the drift a mock
    reader keeps after a read lies between -2 and 2. *)
Theorem mock_drift_is_bounded (env : ReadEnv) (bt bh d : float)
    (id ty : string) (last : option SensorReading) (errs maxe : Z) :
  let self := mkReader (MockSensorReader bt bh d) id ty last errs maxe in
  exists d',
    kind (snd (read self env)) = MockSensorReader bt bh d' /\
    (d' = 2%float \/ PrimFloat.ltb d' 2%float = true) /\
    (d' = (-2)%float \/ PrimFloat.ltb (-2)%float d' = true).
Proof.
  simpl. unfold read. simpl. unfold MockSensorReader_read.
  set (d1 := (d + uniform1 env)%float).
  assert (exists d', py_max (-2)%float (py_min 2%float d1) = d' /\
            (d' = 2%float \/ PrimFloat.ltb d' 2%float = true) /\
            (d' = (-2)%float \/ PrimFloat.ltb (-2)%float d' = true))
    as (d' & Hd' & Hbounds).
  { unfold py_max, py_min. destruct (PrimFloat.ltb d1 2%float) eqn:Hhi.
    - destruct (PrimFloat.ltb (-2)%float d1) eqn:Hlo.
      + exists d1. auto.
      + eexists. split; [reflexivity|]. split; [right|left]; reflexivity.
    - eexists. split; [reflexivity|].
      change (PrimFloat.ltb (-2)%float 2%float) with true. cbv iota. auto. }
  exists d'. rewrite Hd'.
  destruct (PrimFloat.ltb (random_random env) _); simpl;
    (split; [reflexivity|exact Hbounds]).
Qed.

End ReadFacts.

(** ** Range validation at the edge *)

Lemma ltb_nan_l (x : float) : PrimFloat.ltb nan x = false.
Proof.
  rewrite ltb_spec. change (Prim2SF nan) with S754_nan. reflexivity.
Qed.

Lemma ltb_nan_r (x : float) : PrimFloat.ltb x nan = false.
Proof.
  rewrite ltb_spec. change (Prim2SF nan) with S754_nan.
  unfold SFltb, SFcompare. destruct (Prim2SF x) as [| | |[] ? ?]; reflexivity.
Qed.

(** X8: the range check lets a NaN through: a valid reading whose present
    fields are all NaN is accepted whatever bounds the table configures,
    because a NaN is neither below a minimum nor above a maximum. *)
Theorem validate_reading_accepts_nan (SensorType : string -> bool)
    (SENSOR_RANGES : gmap string (gmap string (gmap string float)))
    (self : SensorReader) (r : SensorReading) :
  is_valid r = true -> SensorType (reader_type self) = true ->
  (forall x, In (Some x) [temperature r; humidity r; pressure r] -> x = nan) ->
  validate_reading SensorType SENSOR_RANGES self r = true.
Proof.
  intros Hv Hty Hnan. unfold validate_reading. rewrite Hv, Hty. simpl.
  assert (forall rng, rejects rng nan = false) as Hrej.
  { intros rng. unfold rejects, below_min, above_max.
    destruct (rng !! "min"); destruct (rng !! "max");
      now rewrite ?ltb_nan_l, ?ltb_nan_r. }
  assert (forall ranges field v,
            In v [temperature r; humidity r; pressure r] ->
            block_rejects ranges field v = false) as Hblock.
  { intros ranges field [x|] Hin; [|reflexivity].
    simpl. rewrite (Hnan x Hin). apply Hrej. }
  rewrite !Hblock; simpl; auto.
Qed.

(** ** The registry through a poll and in the status snapshot *)

Lemma dict_get_Some_In {V} (k : string) (v : V) (d : dict V) :
  dict_get k d = Some v -> In (k, v) d.
Proof.
  induction d as [|[k1 v1] d IH]; simpl; [discriminate|].
  destruct (String.eqb_spec k k1) as [->|Hne].
  - intros [= ->]. now left.
  - intros H. right. now apply IH.
Qed.

Section RegistryFacts.

Variable HAS_DHT : bool.
Variable HAS_DS18B20 : bool.
Variable round : float -> Z -> float.
Variable dht_driver_init : Z -> string -> bool.
Variable ds18b20_driver_init : bool.

Local Abbreviation read := (read HAS_DHT HAS_DS18B20 round).
Local Abbreviation read_one := (read_one HAS_DHT HAS_DS18B20 round).
Local Abbreviation read_all := (read_all HAS_DHT HAS_DS18B20 round).
Local Abbreviation read_all_loop := (read_all_loop HAS_DHT HAS_DS18B20 round).
Local Abbreviation _setup_sensors :=
  (_setup_sensors HAS_DHT HAS_DS18B20 dht_driver_init ds18b20_driver_init).

(** The sensor object [read_all] leaves under a sensor id. *)
Definition polled_sensor (env : string -> ReadEnv)
    (item : string * SensorReader) : string * SensorReader :=
  (fst item, snd (read (snd item) (env (fst item)))).

Lemma read_one_sensor (env : string -> ReadEnv) (id : string)
    (s : SensorReader) :
  snd (read_one env id s) = snd (read s (env id)).
Proof.
  unfold read_one. now destruct (read s (env id)) as [[r|msg] s'].
Qed.

Lemma read_all_loop_sensors (env : string -> ReadEnv)
    (items : list (string * SensorReader)) (acc : dict SensorReading) :
  snd (read_all_loop env items acc) = map (polled_sensor env) items.
Proof.
  revert acc. induction items as [|[id s] items IH]; intros acc; simpl;
    [reflexivity|].
  pose proof (read_one_sensor env id s) as Hs.
  destruct (read_one env id s) as [reading s'].
  specialize (IH (dict_set id reading acc)).
  destruct (read_all_loop env items (dict_set id reading acc)) as [rs rest'].
  simpl in *. unfold polled_sensor at 1. simpl. now rewrite IH, Hs.
Qed.

Lemma get_sensor_status_loop_entries (items : list (string * SensorReader))
    (acc : dict (dict JValue)) :
  NoDup (keys acc ++ keys items) ->
  get_sensor_status_loop items acc
  = (acc ++ map (fun item => (fst item, sensor_status (snd item))) items)%list.
Proof.
  revert acc. induction items as [|[id s] items IH]; intros acc Hnd; simpl.
  - now rewrite app_nil_r.
  - apply NoDup_app in Hnd as (Hacc & Hdisj & Hitems).
    apply NoDup_cons in Hitems as [Hid Hitems].
    assert (id ∉ keys acc) as Hfresh.
    { intros Hin. apply (Hdisj _ Hin). left. }
    rewrite dict_set_fresh by exact Hfresh. rewrite IH.
    + now rewrite <- app_assoc.
    + unfold keys. rewrite map_app. simpl. rewrite <- app_assoc. simpl.
      apply NoDup_app. repeat split; [exact Hacc| |].
      * intros x Hx Hx'. apply elem_of_cons in Hx' as [->|Hx'];
          [contradiction|]. apply (Hdisj _ Hx). now right.
      * apply NoDup_cons. split; assumption.
Qed.

(** X9: after a poll of the registry the status snapshot has exactly one
    entry per registered sensor id, and the entry describes the sensor as
    that poll's read left it: its error count, its health and the reading
    it has stored. *)
Theorem status_after_read_all (env : string -> ReadEnv)
    (sensors : dict SensorReader) :
  NoDup (keys sensors) ->
  let status := get_sensor_status (snd (read_all env sensors)) in
  keys status = keys sensors /\
  forall id sensor, get_sensor sensors id = Some sensor ->
    let polled := snd (read sensor (env id)) in
    dict_get id status = Some (sensor_status polled) /\
    dict_get "error_count" (sensor_status polled)
    = Some (JInt (_error_count polled)) /\
    dict_get "healthy" (sensor_status polled)
    = Some (JBool (Z.ltb (_error_count polled) (_max_errors sensor))) /\
    (get_last_reading polled = None <->
     dict_get "last_reading_time" (sensor_status polled) = Some JNone).
Proof.
  intros Hnd.
  assert (keys (map (polled_sensor env) sensors) = keys sensors) as Hk.
  { unfold keys. rewrite map_map. reflexivity. }
  assert (get_sensor_status (snd (read_all env sensors))
          = map (fun item => (fst item, sensor_status (snd item)))
                (map (polled_sensor env) sensors)) as Hst.
  { unfold get_sensor_status, read_all. rewrite read_all_loop_sensors.
    rewrite get_sensor_status_loop_entries; [reflexivity|].
    simpl. now rewrite Hk. }
  cbv zeta. rewrite Hst. split.
  - unfold keys. rewrite !map_map. reflexivity.
  - intros id sensor Hget. apply dict_get_Some_In in Hget.
    set (polled := snd (read sensor (env id))).
    repeat split.
    + apply dict_get_In.
      * unfold keys. rewrite !map_map. exact Hnd.
      * rewrite map_map.
        change (id, sensor_status polled)
          with ((fun item : string * SensorReader =>
                   (fst (polled_sensor env item),
                    sensor_status (snd (polled_sensor env item))))
                  (id, sensor)).
        now apply in_map.
    + unfold sensor_status. simpl. unfold is_healthy.
      destruct (read_keeps_identity HAS_DHT HAS_DS18B20 round sensor (env id))
        as (_ & _ & Hm).
      fold polled in Hm. now rewrite Hm.
    + unfold sensor_status. simpl. unfold get_last_reading.
      now intros ->.
    + unfold sensor_status. simpl. unfold get_last_reading.
      destruct (_last_reading polled); [discriminate|reflexivity].
Qed.

Lemma read_ok_identity (self : SensorReader) (env : ReadEnv) :
  kind self <> BaseReader ->
  exists r, fst (read self env) = Ok r /\ sensor_id r = reader_id self.
Proof.
  intros Hk. unfold read. destruct (kind self) as [|pin s|s|bt bh d]; simpl.
  - contradiction.
  - unfold DHT11Reader_read. destruct (s && HAS_DHT).
    + destruct (hw_temperature env) as [[t|]|]; simpl; eauto;
        destruct (hw_humidity env) as [[h|]|]; simpl; eauto.
    + simpl. eauto.
  - unfold DS18B20Reader_read. destruct (s && HAS_DS18B20).
    + destruct (hw_get_temperature env); simpl; eauto.
    + simpl. eauto.
  - unfold MockSensorReader_read.
    destruct (PrimFloat.ltb _ _); simpl; eauto.
Qed.

(** X10: polling the registry that [_setup_sensors] built gives exactly one
    reading per configured sensor id, whatever the configuration list
    (repeated ids included); no read of such a registry raises, so every
    reading comes from the sensor's own [read] and carries its id. *)
Theorem read_all_of_setup_sensors (env : string -> ReadEnv)
    (configs : list SensorConfig) :
  let sensors := _setup_sensors configs in
  let readings := fst (read_all env sensors) in
  keys readings = keys sensors /\ NoDup (keys readings) /\
  (forall id, In id (keys readings) <-> In id (map sc_id configs)) /\
  forall c, In c configs ->
    exists sensor r,
      get_sensor sensors (sc_id c) = Some sensor /\
      fst (read sensor (env (sc_id c))) = Ok r /\
      dict_get (sc_id c) readings = Some r /\ sensor_id r = sc_id c.
Proof.
  intros sensors readings.
  destruct (setup_loop_registry HAS_DHT HAS_DS18B20 dht_driver_init
              ds18b20_driver_init configs [])
    as (Hnd & Hkeys & Hget); [constructor|].
  fold (_setup_sensors configs) in Hnd, Hkeys, Hget.
  fold sensors in Hnd, Hkeys, Hget.
  assert (readings = map (filed_reading HAS_DHT HAS_DS18B20 round env) sensors)
    as Hr.
  { unfold readings, read_all.
    now rewrite read_all_loop_readings by exact Hnd. }
  assert (keys readings = keys sensors) as Hk.
  { rewrite Hr. apply keys_filed. }
  repeat split; [exact Hk|now rewrite Hk| | |].
  - rewrite Hk. intros H. apply Hkeys in H as [[]|H]. exact H.
  - rewrite Hk. intros H. apply Hkeys. now right.
  - intros c Hin.
    assert (In (sc_id c) (keys sensors)) as Hid.
    { apply Hkeys. right. now apply in_map. }
    apply dict_get_keys in Hid as [sensor Hs].
    destruct (Hget _ _ Hs) as [[=]|(c' & _ & Hid' & Hc')].
    destruct (create_sensor_reader_fresh HAS_DHT HAS_DS18B20 dht_driver_init
                ds18b20_driver_init (sc_id c')
                (default "DHT11" (sc_type c')) c')
      as (Hrid & Hkind & _).
    fold (configured_reader HAS_DHT HAS_DS18B20 dht_driver_init
            ds18b20_driver_init c') in Hrid, Hkind.
    rewrite <- Hc' in Hrid, Hkind.
    destruct (read_ok_identity sensor (env (sc_id c)) Hkind) as (r & Hok & Hsid).
    exists sensor, r. repeat split; [exact Hs|exact Hok| |congruence].
    rewrite Hr.
    assert (fst (read_one env (sc_id c) sensor) = r) as Hone.
    { unfold read_one. destruct (read sensor (env (sc_id c))) as [[r'|m] s'];
        simpl in *; congruence. }
    rewrite <- Hone. apply dict_get_In; [now rewrite keys_filed|].
    change (sc_id c, fst (read_one env (sc_id c) sensor))
      with (filed_reading HAS_DHT HAS_DS18B20 round env (sc_id c, sensor)).
    apply in_map. now apply dict_get_Some_In.
Qed.

End RegistryFacts.

(** * More of mqtt_client.py *)

(** ** Methods that never raise *)

(** [m] returns: run from any state it ends with a value, not an
    exception. *)
Definition returns {A} (m : M A) : Prop :=
  forall w, exists a, fst (m w) = Ok a.

Lemma returns_ret {A} (a : A) : returns (mret a).
Proof. intros w. now exists a. Qed.

Lemma returns_bind {A B} (m : M A) (f : A -> M B) :
  returns m -> (forall a, returns (f a)) -> returns (m ≫= f).
Proof.
  intros Hm Hf w. unfold mbind, M_bind. destruct (Hm w) as [a Ha].
  destruct (m w) as [[a'|msg] w']; simpl in Ha; [|discriminate].
  apply Hf.
Qed.

Lemma returns_try {A} (body : M A) (handler : string -> M A) :
  (forall e, returns (handler e)) -> returns (try_except body handler).
Proof.
  intros Hh w. unfold try_except. destruct (body w) as [[a|msg] w'].
  - now exists a.
  - apply Hh.
Qed.

Lemma returns_get : returns get.
Proof. intros w. now eexists. Qed.

Lemma returns_logger (lvl : LogLevel) (msg : string) :
  returns (logger lvl msg).
Proof. intros w. now eexists. Qed.

Lemma returns_now (clock : list Effect -> Z) : returns (datetime_now clock).
Proof. intros w. now eexists. Qed.

Ltac returns_rule :=
  lazymatch goal with
  | |- returns (mret _) => apply returns_ret
  | |- returns get => apply returns_get
  | |- returns (datetime_now _) => apply returns_now
  | |- returns (logger _ _) => apply returns_logger
  | |- returns (try_except _ _) => apply returns_try; intros ?
  | |- returns (_ ≫= _) => apply returns_bind; [|intros ?]
  | |- returns (if ?b then _ else _) => destruct b
  end.

(** The bounds of a backoff sleep. *)
Definition sleep_in_bounds (e : Effect) : Prop :=
  match e with
  | Sleep d => 2 <= d <= 30
  | _ => True
  end.

(** The attempt counter is between 0 and the configured maximum [m] (or 0
    when the maximum is not positive), and every sleep made so far is
    within bounds. *)
Definition counter_in_bounds (m : Z) (w : World) : Prop :=
  max_reconnect_attempts (self w) = m /\
  0 <= reconnect_attempts (self w) <= Z.max 0 m /\
  Forall sleep_in_bounds (calls w).

Section ClientMore.

Variable transport : list Effect -> Effect -> Result Z.
Variable clock : list Effect -> Z.
Variable MQTT_TOPICS : string -> string -> string.

Local Abbreviation step := (step transport clock MQTT_TOPICS).
Local Abbreviation run := (run transport clock MQTT_TOPICS).

(** X11: [connect], [subscribe] and the four publish helpers never raise,
    whatever the transport does (an exception of the transport included):
    each of them returns a boolean. *)
Theorem client_calls_never_raise :
  returns (connect transport) /\
  (forall topic_pattern qos, returns (subscribe transport topic_pattern qos)) /\
  (forall sensor_id data,
     returns (publish_sensor_data transport clock MQTT_TOPICS sensor_id data)) /\
  (forall status reason,
     returns (publish_status transport clock MQTT_TOPICS status reason)) /\
  returns (publish_heartbeat transport clock MQTT_TOPICS) /\
  (forall message data,
     returns (publish_debug transport clock MQTT_TOPICS message data)).
Proof.
  repeat split; intros; unfold_methods; repeat returns_rule.
Qed.

Lemma counter_in_bounds_call m e w :
  sleep_in_bounds e -> counter_in_bounds m w ->
  counter_in_bounds m (mkWorld (self w) (calls w ++ [e]) (log w)).
Proof.
  intros He (Hm & Hn & Hs). repeat split; auto; try apply Hn.
  simpl. apply Forall_app. split; auto.
Qed.

Lemma backoff_in_bounds (n : Z) : 0 <= n -> 2 <= Z.min 30 (2 ^ (n + 1)) <= 30.
Proof.
  intros Hn. replace (n + 1) with (Z.succ n) by lia.
  rewrite Z.pow_succ_r by exact Hn.
  pose proof (Z.pow_pos_nonneg 2 n ltac:(lia) Hn). lia.
Qed.

Lemma step_counter_in_bounds m e :
  preserves (counter_in_bounds m) (step e).
Proof.
  destruct e; unfold_methods;
    try apply preserves_heartbeat_tick; unfold_methods; repeat pres_rule;
    try (intros w l Hw; exact Hw);
    try (intros w Hw; apply counter_in_bounds_call; [exact I|exact Hw]);
    try (intros w (Hm & Hn & Hs); repeat split; simpl; auto; lia);
    match goal with
    | H : exists w, counter_in_bounds _ w /\ self w = ?c,
      E : Z.leb (max_reconnect_attempts ?c) _ = false |- _ =>
        destruct H as (w0 & (Hm0 & Hn0 & _) & <-); apply Z.leb_gt in E
    end.
  - intros w (Hm & Hn & Hs). repeat split; simpl; auto; lia.
  - intros w Hw. apply counter_in_bounds_call; [|exact Hw].
    simpl. apply backoff_in_bounds. lia.
Qed.

(** X12: in every run of a freshly built client the attempt counter stays
    between 0 and [max_reconnect_attempts] (at 0 when that is not
    positive), and every backoff sleep lasts between 2 and 30 seconds. *)
Theorem counter_and_backoff_stay_in_bounds (HAS_MQTT : bool)
    (uuid_hex : string) (config : MQTTConfig) (client_id : option string)
    (events : list Event) :
  let w := run events
             (mkWorld (__init__ HAS_MQTT uuid_hex config client_id) [] []) in
  0 <= reconnect_attempts (self w)
    <= Z.max 0 (default 10 (cfg_max_reconnect_attempts config)) /\
  forall d, In (Sleep d) (calls w) -> 2 <= d <= 30.
Proof.
  intros w.
  assert (counter_in_bounds (default 10 (cfg_max_reconnect_attempts config)) w)
    as (_ & Hn & Hs).
  { apply (preserves_run transport clock MQTT_TOPICS _ (fun _ => True)
             events).
    - intros e _. apply step_counter_in_bounds.
    - apply Forall_forall. auto.
    - split; [reflexivity|]. split; [simpl; lia|constructor]. }
  split; [exact Hn|]. intros d Hin.
  rewrite Forall_forall in Hs. apply (Hs (Sleep d)).
  now apply list_elem_of_In.
Qed.

End ClientMore.

(** ** What the client sends *)

(** The transport took the message: it answered with [MQTT_ERR_SUCCESS]. *)
Definition accepted (answer : Result Z) : bool :=
  match answer with
  | Ok rc => Z.eqb rc MQTT_ERR_SUCCESS
  | Raise _ => false
  end.

(** The payloads of the status, sensor data and heartbeat messages. *)
Definition status_payload (client_id status : string) (reason : option string)
    (t : Z) : JValue :=
  JDict [("client_id", JStr client_id); ("status", JStr status);
         ("timestamp", JTime t); ("reason", opt_str reason);
         ("message_type", JStr "sensor_status")].

Definition sensor_data_payload (sensor_id client_id : string) (data : JValue)
    (t : Z) : JValue :=
  JDict [("sensor_id", JStr sensor_id); ("client_id", JStr client_id);
         ("data", data); ("timestamp", JTime t);
         ("message_type", JStr "sensor_data")].

Definition heartbeat_payload (client_id : string) (t : Z) : JValue :=
  JDict [("client_id", JStr client_id); ("timestamp", JTime t);
         ("message_type", JStr "heartbeat")].

Lemma bind_ret {A B} (a : A) (f : A -> M B) (w : World) :
  (mret a ≫= f) w = f a w.
Proof. reflexivity. Qed.

Lemma bind_logger {B} (lvl : LogLevel) (msg : string) (f : unit -> M B)
    (w : World) :
  (logger lvl msg ≫= f) w
  = f tt (mkWorld (self w) (calls w) (log w ++ [(lvl, msg)])).
Proof. reflexivity. Qed.

Lemma bind_perform {B} (e : Effect) (f : unit -> M B) (w : World) :
  (perform e ≫= f) w = f tt (mkWorld (self w) (calls w ++ [e]) (log w)).
Proof. reflexivity. Qed.

Lemma bind_now {B} (clock : list Effect -> Z) (f : Z -> M B) (w : World) :
  (datetime_now clock ≫= f) w = f (clock (calls w)) w.
Proof. reflexivity. Qed.

Section Traffic.

Variable transport : list Effect -> Effect -> Result Z.
Variable clock : list Effect -> Z.
Variable MQTT_TOPICS : string -> string -> string.

Lemma _publish_connected (topic : string) (payload : JValue) (qos : Z)
    (retain : bool) (w : World) :
  client (self w) = true -> connected (self w) = true ->
  exists l,
    _publish transport topic payload qos retain w
    = (Ok (accepted (transport (calls w) (Publish topic payload qos retain))),
       mkWorld (self w) (calls w ++ [Publish topic payload qos retain]) l).
Proof.
  intros Hcl Hc. unfold _publish. rewrite bind_get, Hcl, Hc. simpl.
  unfold try_except, mbind, M_bind, call, logger, mret, M_ret. simpl.
  destruct (transport _ _) as [rc|msg]; simpl; [|eauto].
  destruct (Z.eqb rc MQTT_ERR_SUCCESS); simpl; eauto.
Qed.

Lemma _publish_not_connected (topic : string) (payload : JValue) (qos : Z)
    (retain : bool) (w : World) :
  client (self w) && connected (self w) = false ->
  _publish transport topic payload qos retain w = (Ok false, w).
Proof.
  intros H. unfold _publish. rewrite bind_get.
  destruct (client (self w)), (connected (self w)); try discriminate;
    reflexivity.
Qed.

Lemma subscribe_connected (topic : string) (qos : Z) (w : World) :
  client (self w) = true -> connected (self w) = true ->
  exists l,
    subscribe transport topic qos w
    = (Ok (accepted (transport (calls w) (Subscribe topic qos))),
       mkWorld (self w) (calls w ++ [Subscribe topic qos]) l).
Proof.
  intros Hcl Hc. unfold subscribe. rewrite bind_get, Hcl, Hc. simpl.
  unfold try_except, mbind, M_bind, call, logger, mret, M_ret. simpl.
  destruct (transport _ _) as [rc|msg]; simpl; [|eauto].
  destruct (Z.eqb rc MQTT_ERR_SUCCESS); simpl; eauto.
Qed.

Lemma publish_status_connected (status : string) (reason : option string)
    (w : World) :
  client (self w) = true -> connected (self w) = true ->
  let message :=
    Publish (MQTT_TOPICS "sensor_status" (client_id (self w)))
            (status_payload (client_id (self w)) status reason
                            (clock (calls w))) 1 true in
  exists l,
    publish_status transport clock MQTT_TOPICS status reason w
    = (Ok (accepted (transport (calls w) message)),
       mkWorld (self w) (calls w ++ [message]) l).
Proof.
  intros Hcl Hc. unfold publish_status. rewrite bind_get, bind_now.
  apply _publish_connected; assumption.
Qed.

(** X13: on a connected client with a transport, [publish_sensor_data]
    hands the transport exactly one message: on the client's sensor-data
    topic, at QoS 1, not retained, carrying the sensor id, the client id,
    the data and the time; it returns whether the transport accepted it
    (false when the transport raised), and changes no field. *)
Theorem publish_sensor_data_connected (sensor_id : string) (data : JValue)
    (w : World) :
  client (self w) = true -> connected (self w) = true ->
  let message :=
    Publish (MQTT_TOPICS "sensor_data" (client_id (self w)))
            (sensor_data_payload sensor_id (client_id (self w)) data
                                 (clock (calls w))) 1 false in
  let out := publish_sensor_data transport clock MQTT_TOPICS sensor_id data w in
  fst out = Ok (accepted (transport (calls w) message)) /\
  calls (snd out) = (calls w ++ [message])%list /\
  self (snd out) = self w.
Proof.
  intros Hcl Hc message out. unfold out, publish_sensor_data.
  rewrite bind_get, Hc. simpl. rewrite bind_now.
  destruct (_publish_connected
              (MQTT_TOPICS "sensor_data" (client_id (self w)))
              (sensor_data_payload sensor_id (client_id (self w)) data
                                   (clock (calls w))) 1 false w Hcl Hc)
    as (l & Heq).
  unfold sensor_data_payload in Heq. rewrite Heq. repeat split.
Qed.

(** X14: [connect()] on a client with a transport asks the transport to
    connect to the configured host, port and keepalive (defaults
    localhost, 1883, 60) and starts the network loop only when that
    succeeded; it returns true exactly when both went through, and it never
    touches [connected] or any other field: only the acknowledgement
    does. *)
Theorem connect_behaviour (w : World) :
  client (self w) = true ->
  let request :=
    Connect (default "localhost" (cfg_host (config (self w))))
            (default 1883 (cfg_port (config (self w))))
            (default 60 (cfg_keepalive (config (self w)))) in
  let out := connect transport w in
  self (snd out) = self w /\
  calls (snd out)
  = (calls w ++ request
       :: (if accepted (transport (calls w) request) then [LoopStart]
           else []))%list /\
  fst out
  = Ok (accepted (transport (calls w) request) &&
        match transport (calls w ++ [request]) LoopStart with
        | Ok _ => true
        | Raise _ => false
        end).
Proof.
  intros Hcl request out. unfold out, connect. rewrite bind_get, Hcl. simpl.
  unfold try_except, mbind, M_bind, call, logger, mret, M_ret. simpl.
  fold request.
  destruct (transport (calls w) request) as [rc|msg]; simpl;
    [|repeat split].
  destruct (Z.eqb rc MQTT_ERR_SUCCESS); simpl; [|repeat split].
  destruct (transport _ LoopStart); simpl; repeat split;
    now rewrite <- app_assoc.
Qed.

End Traffic.

Lemma bind_eq {A B} (m : M A) (f : A -> M B) (w w' : World) (a : A) :
  m w = (Ok a, w') -> (m ≫= f) w = f a w'.
Proof. intros H. unfold mbind, M_bind. now rewrite H. Qed.

Section Lifecycle.

Variable transport : list Effect -> Effect -> Result Z.
Variable clock : list Effect -> Z.
Variable MQTT_TOPICS : string -> string -> string.

(** X15: a successful connection acknowledgement on a client with a
    transport marks it connected, puts the attempt counter back to 0, and
    then makes, in this order: one subscription to the client's
    configuration topic, one retained [online] status publish, the start of
    the heartbeat thread unless one is alive, and the connect callback if
    one is installed. An acknowledgement with a failure code changes no
    field and makes no call. *)
Theorem on_connect_behaviour (rc : Z) (w : World) :
  client (self w) = true ->
  let w' := snd (_on_connect transport clock MQTT_TOPICS rc w) in
  let subscription := Subscribe (MQTT_TOPICS "config" (client_id (self w))) 1 in
  let online :=
    Publish (MQTT_TOPICS "sensor_status" (client_id (self w)))
            (status_payload (client_id (self w)) "online" (Some "connected")
                            (clock (calls w ++ [subscription]))) 1 true in
  if Z.eqb rc 0 then
    connected (self w') = true /\ reconnect_attempts (self w') = 0 /\
    _heartbeat_thread (self w') = Some true /\
    calls w'
    = (calls w ++ [subscription; online]
       ++ (match _heartbeat_thread (self w) with
           | Some true => []
           | _ => [ThreadStart]
           end)
       ++ (if on_connect_callback (self w) then [Callback "on_connect"]
           else []))%list
  else self w' = self w /\ calls w' = calls w.
Proof.
  intros Hcl w' subscription online. unfold w', _on_connect.
  destruct (Z.eqb rc 0); [|split; reflexivity].
  rewrite !bind_modify, bind_logger, bind_get.
  match goal with
  | |- context [(subscribe _ _ _ ≫= _) ?w1] => set (w1' := w1)
  end.
  destruct (subscribe_connected transport
              (MQTT_TOPICS "config" (client_id (self w))) 1 w1' Hcl eq_refl)
    as (l1 & Hsub).
  rewrite (bind_eq _ _ _ _ _ Hsub).
  match goal with
  | |- context [(publish_status _ _ _ _ _ ≫= _) ?w2] => set (w2' := w2)
  end.
  destruct (publish_status_connected transport clock MQTT_TOPICS "online"
              (Some "connected") w2' Hcl eq_refl) as (l2 & Hpub).
  rewrite (bind_eq _ _ _ _ _ Hpub).
  unfold _start_heartbeat, mbind, M_bind, get, modify, perform, mret, M_ret.
  subst w1' w2'. simpl.
  destruct w as [c cs lg]. destruct c. simpl in *.
  destruct _heartbeat_thread0 as [[|]|], on_connect_callback0; simpl;
    repeat split; rewrite <- ?app_assoc; reflexivity.
Qed.

(** X16: a deliberate [disconnect()] on a client with a transport sets the
    stop flag and then, in this order: joins the heartbeat thread if there
    is one, publishes a retained [offline]/[graceful_disconnect] status if
    the client is connected, stops the network loop and closes the
    transport session (the last only if stopping the loop did not raise).
    It does not clear [connected] itself, and it returns normally exactly
    when neither of the last two calls raised. *)
Theorem disconnect_behaviour (w : World) :
  client (self w) = true ->
  let out := disconnect transport clock MQTT_TOPICS w in
  let join :=
    if is_none (_heartbeat_thread (self w)) then [] else [ThreadJoin 5] in
  let offline :=
    if connected (self w) then
      [Publish (MQTT_TOPICS "sensor_status" (client_id (self w)))
               (status_payload (client_id (self w)) "offline"
                               (Some "graceful_disconnect")
                               (clock (calls w ++ join))) 1 true]
    else [] in
  let before_stop := (calls w ++ join ++ offline)%list in
  _stop_event (self (snd out)) = true /\
  connected (self (snd out)) = connected (self w) /\
  match transport before_stop LoopStop with
  | Raise _ =>
      calls (snd out) = (before_stop ++ [LoopStop])%list /\
      fst out <> Ok tt
  | Ok _ =>
      calls (snd out) = (before_stop ++ [LoopStop; Disconnect])%list /\
      (fst out = Ok tt <->
       exists z, transport (before_stop ++ [LoopStop]) Disconnect = Ok z)
  end.
Proof.
  intros Hcl out join offline before_stop.
  unfold out, disconnect. rewrite bind_get, Hcl. cbn [negb].
  rewrite bind_modify.
  assert (forall (w1 : World) (k : unit -> M unit),
            self w1 = set_stop_event true (self w) ->
            calls w1 = (calls w ++ join)%list ->
            exists l,
              ((if connected (self w) then
                  publish_status transport clock MQTT_TOPICS "offline"
                                 (Some "graceful_disconnect");; mret tt
                else mret tt) ≫= k) w1
              = k tt (mkWorld (self w1) before_stop l)) as Hoff.
  { intros w1 k Hs Hc1. unfold before_stop, offline.
    destruct (connected (self w)) eqn:Hc.
    - destruct (publish_status_connected transport clock MQTT_TOPICS
                  "offline" (Some "graceful_disconnect") w1) as (l & Heq).
      + rewrite Hs. exact Hcl.
      + rewrite Hs. exact Hc.
      + unfold mbind at 1, M_bind at 1. unfold mbind at 1, M_bind at 1.
        rewrite Heq. rewrite Hs, Hc1 in *. simpl.
        exists l. now rewrite <- app_assoc.
    - rewrite bind_ret, app_nil_r. destruct w1 as [c1 cs1 l1].
      simpl in *. subst. now exists l1. }
  assert (forall w2 : World,
            self w2 = set_stop_event true (self w) ->
            calls w2 = before_stop ->
            let rest := (call transport LoopStop;;
                         call transport Disconnect;;
                         logger INFO "Disconnected from MQTT broker") w2 in
            _stop_event (self (snd rest)) = true /\
            connected (self (snd rest)) = connected (self w) /\
            match transport before_stop LoopStop with
            | Raise _ =>
                calls (snd rest) = (before_stop ++ [LoopStop])%list /\
                fst rest <> Ok tt
            | Ok _ =>
                calls (snd rest) = (before_stop ++ [LoopStop; Disconnect])%list /\
                (fst rest = Ok tt <->
                 exists z, transport (before_stop ++ [LoopStop]) Disconnect
                           = Ok z)
            end) as Hrest.
  { intros w2 Hs Hc2. unfold mbind, M_bind, call, logger. simpl.
    rewrite Hc2. destruct (transport before_stop LoopStop); simpl.
    - destruct (transport (before_stop ++ [LoopStop]) Disconnect) eqn:Hd;
        simpl; rewrite Hs; repeat split; simpl;
        rewrite <- ?app_assoc; eauto; try discriminate.
      intros [z [=]].
    - rewrite Hs. repeat split. discriminate. }
  cbv beta.
  destruct (_heartbeat_thread (self w)) as [alive|] eqn:Hth; simpl is_none;
    cbv iota.
  - rewrite bind_perform.
    match goal with
    | |- context [(_ ≫= _) ?w1] =>
        destruct (Hoff w1 (fun _ => call transport LoopStop;;
                                   call transport Disconnect;;
                                   logger INFO "Disconnected from MQTT broker")
                    eq_refl eq_refl) as (l & Heq)
    end.
    unfold join in *. simpl is_none in *. cbv iota in *.
    rewrite Heq. apply Hrest; reflexivity.
  - rewrite bind_ret.
    match goal with
    | |- context [(_ ≫= _) ?w1] =>
        destruct (Hoff w1 (fun _ => call transport LoopStop;;
                                   call transport Disconnect;;
                                   logger INFO "Disconnected from MQTT broker")
                    eq_refl) as (l & Heq)
    end.
    { unfold join. simpl. now rewrite app_nil_r. }
    rewrite Heq. apply Hrest; reflexivity.
Qed.


(** X18: an inbound message never fails the caller and never changes the
    client: a payload that does not decode is logged and dropped without
    reaching the message callback; a well-formed one, on the configuration
    topic or any other, is passed to the callback when one is installed. *)
Theorem on_message_behaviour (topic : string) (payload : Result JValue)
    (w : World) :
  let out := _on_message topic payload w in
  fst out = Ok tt /\ self (snd out) = self w /\
  calls (snd out)
  = (calls w
     ++ match payload with
        | Ok _ => if on_message_callback (self w) then [Callback "on_message"]
                  else []
        | Raise _ => []
        end)%list.
Proof.
  unfold _on_message, try_except. destruct payload as [p|e]; simpl.
  - unfold mbind, M_bind, logger, get, perform, mret, M_ret. simpl.
    destruct (contains "config" topic); simpl;
      destruct (on_message_callback (self w)); simpl;
      repeat split; now rewrite ?app_nil_r.
  - repeat split. now rewrite app_nil_r.
Qed.

End Lifecycle.

Section AfterDisconnect.

Variable transport : list Effect -> Effect -> Result Z.
Variable clock : list Effect -> Z.
Variable MQTT_TOPICS : string -> string -> string.

(** X19: after a deliberate [disconnect()] on a client with a transport,
    whatever happens next (a reconnect acknowledged by the broker
    included), a turn of the heartbeat thread publishes nothing: it makes
    no call at all and leaves no live heartbeat thread. *)
Theorem no_heartbeat_after_disconnect (w : World) (events : list Event) :
  client (self w) = true ->
  let w1 := run transport clock MQTT_TOPICS events
                (snd (disconnect transport clock MQTT_TOPICS w)) in
  let w2 := snd (heartbeat_tick transport clock MQTT_TOPICS w1) in
  calls w2 = calls w1 /\ _heartbeat_thread (self w2) <> Some true.
Proof.
  intros Hcl w1 w2.
  assert (stopped w1) as Hstop.
  { apply (preserves_run transport clock MQTT_TOPICS stopped (fun _ => True)
             events).
    - intros e _. apply step_stopped.
    - apply Forall_forall. auto.
    - now apply disconnect_sets_stop. }
  unfold stopped in Hstop. unfold w2, heartbeat_tick.
  destruct (_heartbeat_thread (self w1)) as [[|]|] eqn:Hth.
  - unfold _heartbeat_iteration, mbind, M_bind, get. rewrite Hstop. simpl.
    split; [reflexivity|discriminate].
  - simpl. rewrite Hth. split; [reflexivity|discriminate].
  - simpl. rewrite Hth. split; [reflexivity|discriminate].
Qed.

End AfterDisconnect.

(** ** The mock client and the factory *)

(** X20: [create_mqtt_client] returns a real client only when the MQTT
    library is present and mock mode is off, and that client always has a
    transport object; in every other case it returns the mock. Either one
    starts disconnected, with nothing sent. *)
Theorem create_mqtt_client_kind (HAS_MQTT : bool) (uuid_hex : string)
    (config : MQTTConfig) (client_id : option string) :
  match Agent.create_mqtt_client HAS_MQTT uuid_hex config client_id with
  | Agent.Real w =>
      HAS_MQTT = true /\ cfg_mock_mode config <> Some true /\
      client (self w) = true /\ connected (self w) = false /\ calls w = []
  | Agent.Mocked m =>
      (HAS_MQTT = false \/ cfg_mock_mode config = Some true) /\
      Mock.connected m = false /\ Mock.published_messages m = []
  end.
Proof.
  unfold Agent.create_mqtt_client.
  destruct HAS_MQTT, (cfg_mock_mode config) as [[|]|]; simpl;
    repeat split; auto; discriminate.
Qed.

(** The [published_count] entry of the mock's status. *)
Definition published_count (m : Mock.MockMQTTClient) : option JValue :=
  dict_get "published_count" (Mock.get_status m).

(** X21: the mock client records a sensor-data or status publish exactly
    when it is connected: the call then returns true and
    [published_count] grows by one; while disconnected it returns false
    and records nothing. After [connect()] publishing succeeds, after
    [disconnect()] it fails. *)
Theorem mock_client_records_publishes (t : Z) (sensor_id : string)
    (data : JValue) (status : string) (reason : option string)
    (m : Mock.MockMQTTClient) :
  let count m := Z.of_nat (length (Mock.published_messages m)) in
  let sent := Mock.publish_sensor_data t sensor_id data m in
  let told := Mock.publish_status t status reason m in
  fst sent = Mock.connected m /\ fst told = Mock.connected m /\
  published_count (snd sent)
  = Some (JInt (count m + (if Mock.connected m then 1 else 0))) /\
  published_count (snd told)
  = Some (JInt (count m + (if Mock.connected m then 1 else 0))) /\
  fst (Mock.publish_sensor_data t sensor_id data (snd (Mock.connect m)))
  = true /\
  fst (Mock.publish_sensor_data t sensor_id data (Mock.disconnect m)) = false.
Proof.
  unfold published_count, Mock.publish_sensor_data, Mock.publish_status,
    Mock.connect, Mock.disconnect, Mock.get_status.
  destruct m as [cid cfg c msgs]. simpl.
  destruct c; simpl; repeat split;
    rewrite ?length_app; simpl; do 2 f_equal; lia.
Qed.

(** * More of main.py *)

(** An action is a wait on the shutdown event. *)
Definition is_wait (x : Agent.Action) : bool :=
  match x with Agent.Wait _ => true | _ => false end.

Definition waits (a : Agent.IoTSensorClient) : nat :=
  length (List.filter is_wait (Agent.actions a)).

Section AgentMore.

Variable HAS_DHT : bool.
Variable HAS_DS18B20 : bool.
Variable round : float -> Z -> float.
Variable transport : list Effect -> Effect -> Result Z.
Variable clock : list Effect -> Z.
Variable mock_clock : list (string * JValue) -> Z.
Variable MQTT_TOPICS : string -> string -> string.

Local Abbreviation read_all := (read_all HAS_DHT HAS_DS18B20 round).
Local Abbreviation publish_readings :=
  (Agent.publish_readings transport clock mock_clock MQTT_TOPICS).
Local Abbreviation poll_cycle :=
  (Agent.poll_cycle HAS_DHT HAS_DS18B20 round transport clock mock_clock
                    MQTT_TOPICS).
Local Abbreviation _main_loop :=
  (Agent._main_loop HAS_DHT HAS_DS18B20 round transport clock mock_clock
                    MQTT_TOPICS).

(** The action is a [publish_sensor_data] call for a valid reading among
    [readings]. *)
Definition publishes_valid_reading (readings : dict SensorReading)
    (x : Agent.Action) : Prop :=
  exists sensor_id reading,
    In (sensor_id, reading) readings /\ is_valid reading = true /\
    published x = Some (sensor_id, to_dict reading).

Lemma broker_publish_returns (sensor_id : string) (data : JValue)
    (b : Agent.Broker) :
  exists success b',
    Agent.publish_sensor_data transport clock mock_clock MQTT_TOPICS
                              sensor_id data b = (Ok success, b').
Proof.
  destruct b as [w|m]; simpl.
  - destruct (publish_sensor_data_returns transport clock MQTT_TOPICS
                sensor_id data w) as [ok Hok].
    destruct (publish_sensor_data _ _ _ _ _ w) as [r w']. simpl in *.
    subst r. eauto.
  - destruct (Mock.publish_sensor_data _ _ _ m). eauto.
Qed.

Lemma publish_readings_shape (readings : dict SensorReading)
    (a : Agent.IoTSensorClient) :
  let out := publish_readings readings a in
  fst out = Ok tt /\
  Agent.update_interval (snd out) = Agent.update_interval a /\
  Agent.running (snd out) = Agent.running a /\
  Agent.shutdown_event (snd out) = Agent.shutdown_event a /\
  exists new,
    Agent.actions (snd out) = (Agent.actions a ++ new)%list /\
    Forall (publishes_valid_reading readings) new.
Proof.
  revert a. induction readings as [|[id r] rest IH]; intros a.
  - simpl. repeat split. exists []. now rewrite app_nil_r.
  - cbn [Agent.publish_readings].
    assert (forall a1 : Agent.IoTSensorClient,
              Agent.update_interval a1 = Agent.update_interval a ->
              Agent.running a1 = Agent.running a ->
              Agent.shutdown_event a1 = Agent.shutdown_event a ->
              forall pre,
                Agent.actions a1 = (Agent.actions a ++ pre)%list ->
                Forall (publishes_valid_reading ((id, r) :: rest)) pre ->
                let out := publish_readings rest a1 in
                fst out = Ok tt /\
                Agent.update_interval (snd out) = Agent.update_interval a /\
                Agent.running (snd out) = Agent.running a /\
                Agent.shutdown_event (snd out) = Agent.shutdown_event a /\
                exists new,
                  Agent.actions (snd out) = (Agent.actions a ++ new)%list /\
                  Forall (publishes_valid_reading ((id, r) :: rest)) new)
      as Hrest.
    { intros a1 Hi Hr Hs pre Hact Hpre.
      destruct (IH a1) as (Hok & Hi' & Hr' & Hs' & new & Hact' & Hnew).
      repeat split; try congruence.
      exists (pre ++ new)%list. split.
      - rewrite Hact', Hact. now rewrite <- app_assoc.
      - apply Forall_app. split; [exact Hpre|].
        eapply Forall_impl; [exact Hnew|].
        intros x (id' & r' & Hin & Hv & Hp). exists id', r'.
        split; [now right|auto]. }
    destruct (is_valid r) eqn:Hv.
    + unfold Agent._publish_sensor_reading.
      destruct (Agent.mqtt_client a) as [b|] eqn:Hmc.
      * destruct (Agent.is_connected b) eqn:Hc; simpl.
        -- destruct (broker_publish_returns id (to_dict r) b)
             as (ok & b' & Hpub).
           rewrite Hpub.
           apply (Hrest _) with
             (pre := [Agent.PublishSensorData id (to_dict r) ok]);
             try (destruct ok; reflexivity).
           constructor; [|constructor]. exists id, r.
           split; [now left|auto].
        -- apply (Hrest _) with (pre := []); try reflexivity;
             [simpl; now rewrite app_nil_r|constructor].
      * apply (Hrest _) with (pre := []); try reflexivity;
          [simpl; now rewrite app_nil_r|constructor].
    + apply (Hrest _) with (pre := []); try reflexivity;
        [simpl; now rewrite app_nil_r|constructor].
Qed.


Lemma poll_cycle_waits_once (env : string -> ReadEnv)
    (a : Agent.IoTSensorClient) :
  Agent.running (poll_cycle env a) = Agent.running a /\
  Agent.shutdown_event (poll_cycle env a) = Agent.shutdown_event a /\
  waits (poll_cycle env a) = S (waits a).
Proof.
  unfold Agent.poll_cycle, waits.
  destruct (Agent.sensor_manager a) as [sensors|].
  - destruct (read_all env sensors) as [rs sensors'] eqn:Hread.
    destruct (publish_readings_shape rs
                (Agent.set_sensor_manager (Some sensors') a))
      as (Hok & Hi & Hr & Hs & new & Hact & Hnew).
    destruct (publish_readings rs _) as [res a1]. simpl in *. subst res.
    simpl. repeat split; auto. rewrite Hact.
    rewrite !List.filter_app, !length_app. simpl.
    assert (List.filter is_wait new = []) as ->.
    { clear Hact. induction Hnew as [|x new (id & r & _ & _ & Hp) _ IH];
        [reflexivity|]. simpl. destruct x; [exact IH|discriminate]. }
    simpl. lia.
  - simpl. repeat split. rewrite List.filter_app, length_app. simpl. lia.
Qed.



End AgentMore.

(** * More concrete runs *)

Definition failing_env : ReadEnv :=
  mkEnv 1700000000 (Raise "Checksum did not validate") (Ok None)
        (Raise "no device") 0%float 0%float 0%float 0.5%float.

Definition good_env : ReadEnv :=
  mkEnv 1700000030 (Ok (Some 21.5%float)) (Ok (Some 40%float))
        (Ok 21.5%float) 0%float 0%float 0%float 0.5%float.

(** A client that has connected and been acknowledged. *)
Definition connected_world : World :=
  run sample_transport sample_clock sample_topics [CallConnect; OnConnect 0]
      sample_world.

Lemma error_count_never_negative_witness :
  0 <= _error_count sample_reader /\
  0 <= _error_count
         (read_many true false sample_round [failing_env; good_env; failing_env]
                    sample_reader).
Proof.
  assert (0 <= _error_count sample_reader) as H by (vm_compute; discriminate).
  split; [exact H|].
  apply (error_count_never_negative true false sample_round
           [failing_env; good_env; failing_env] sample_reader H).
Defined.

Lemma dht_reader_health_witness :
  kind sample_reader = DHT11Reader 4 true /\
  Forall (fun env => dht_failure env = true)
         [failing_env; failing_env; failing_env; failing_env; failing_env] /\
  dht_failure good_env = false /\
  is_healthy
    (read_many true false sample_round
       [failing_env; failing_env; failing_env; failing_env; failing_env]
       sample_reader)
  = Z.ltb (_error_count sample_reader + 5) (_max_errors sample_reader).
Proof.
  assert (Forall (fun env => dht_failure env = true)
            [failing_env; failing_env; failing_env; failing_env; failing_env])
    as Hall by repeat constructor.
  split; [reflexivity|]. split; [exact Hall|]. split; [reflexivity|].
  apply (dht_reader_health true false sample_round _ good_env sample_reader 4
           eq_refl eq_refl Hall eq_refl).
Defined.

Lemma validate_reading_accepts_nan_witness :
  is_valid (reading_of (Some nan) None) = true /\
  sample_SensorType (reader_type sample_reader) = true /\
  validate_reading sample_SensorType sample_SENSOR_RANGES sample_reader
                   (reading_of (Some nan) None) = true.
Proof.
  split; [reflexivity|]. split; [reflexivity|].
  apply (validate_reading_accepts_nan sample_SensorType sample_SENSOR_RANGES
           sample_reader (reading_of (Some nan) None)).
  - reflexivity.
  - reflexivity.
  - intros x [[= <-]|[[=]|[[=]|[]]]]. reflexivity.
Defined.

Lemma status_after_read_all_witness :
  NoDup (keys sample_sensors) /\
  keys (get_sensor_status
          (snd (read_all false false sample_round sample_env sample_sensors)))
  = keys sample_sensors.
Proof.
  assert (NoDup (keys sample_sensors)) as Hnd.
  { apply (bool_decide_unpack (NoDup (keys sample_sensors))).
    vm_compute. exact I. }
  split; [exact Hnd|].
  apply (status_after_read_all false false sample_round sample_env
           sample_sensors Hnd).
Defined.

Lemma publish_sensor_data_connected_witness :
  client (self connected_world) = true /\
  connected (self connected_world) = true /\
  fst (publish_sensor_data sample_transport sample_clock sample_topics
         "sensor_001" (JDict []) connected_world) = Ok true.
Proof.
  split; [reflexivity|]. split; [reflexivity|].
  apply (publish_sensor_data_connected sample_transport sample_clock
           sample_topics "sensor_001" (JDict []) connected_world);
    reflexivity.
Defined.

Lemma connect_behaviour_witness :
  client (self sample_world) = true /\
  self (snd (connect sample_transport sample_world)) = self sample_world /\
  calls (snd (connect sample_transport sample_world))
  = [Connect "broker.local" 1883 60; LoopStart].
Proof.
  split; [reflexivity|].
  pose proof (connect_behaviour sample_transport sample_world eq_refl)
    as (Hself & Hcalls & _).
  split; [exact Hself|exact Hcalls].
Defined.

Lemma on_connect_behaviour_witness :
  client (self sample_world) = true /\
  connected
    (self (snd (_on_connect sample_transport sample_clock sample_topics 0
                            sample_world))) = true.
Proof.
  split; [reflexivity|].
  apply (on_connect_behaviour sample_transport sample_clock sample_topics 0
           sample_world eq_refl).
Defined.

Lemma disconnect_behaviour_witness :
  client (self connected_world) = true /\
  _stop_event
    (self (snd (disconnect sample_transport sample_clock sample_topics
                           connected_world))) = true.
Proof.
  split; [reflexivity|].
  apply (disconnect_behaviour sample_transport sample_clock sample_topics
           connected_world eq_refl).
Defined.

Lemma no_heartbeat_after_disconnect_witness :
  client (self connected_world) = true /\
  let w1 := run sample_transport sample_clock sample_topics
                [OnDisconnect 0; CallConnect; OnConnect 0]
                (snd (disconnect sample_transport sample_clock sample_topics
                                 connected_world)) in
  calls (snd (heartbeat_tick sample_transport sample_clock sample_topics w1))
  = calls w1.
Proof.
  split; [reflexivity|].
  apply (no_heartbeat_after_disconnect sample_transport sample_clock
           sample_topics connected_world
           [OnDisconnect 0; CallConnect; OnConnect 0] eq_refl).
Defined.

